(** * NBA Betting API: the query layer of [backend/app/main.py]

    The program is a read-only HTTP layer: each endpoint assembles one SQL
    statement (text plus a dictionary of bound parameters), sends it over a
    database connection and maps the rows to dictionaries.

    The development follows the file top to bottom:
    - values, dates and the f-strings that build the season boundaries;
    - the [where] fragments, their text and their meaning on a row;
    - the four statements, their SQL text and what they return on a database;
    - the four handlers, in a small monad that records every statement sent;
    - the theorems. *)

From Stdlib Require Import ZArith QArith Qcanon Lia Ascii DecimalString DecimalPos DecimalZ.
From stdpp Require Import base option list strings gmap sorting.

Local Open Scope string_scope.
Local Open Scope list_scope.
Local Open Scope Z_scope.

(** ** Dates

    [game_date] columns hold calendar dates.  The handlers never build a date
    value: they bind the text [f"{season}-10-01"] and leave the coercion to the
    database, so both the formatting and the coercion are modelled. *)

Record date := Date { year : Z; month : Z; day : Z }.

Definition date_compare (a b : date) : comparison :=
  match year a ?= year b with
  | Eq => match month a ?= month b with
          | Eq => day a ?= day b
          | c => c
          end
  | c => c
  end.

(** Python's [str(int)]: decimal digits, a leading minus sign for negatives. *)
Definition str (z : Z) : string := NilZero.string_of_int (Z.to_int z).

(** [f"{season}-10-01"] and [f"{season+1}-07-01"]. *)
Definition season_start (season : Z) : string := str season +:+ "-10-01".
Definition season_end (season : Z) : string := str (season + 1) +:+ "-07-01".

(** *** The database's reading of a date literal

    Text of the shape [<year>-<mm>-<dd>], the year a decimal integer as
    [str] prints it, month and day two digits each and within the calendar. *)

Definition is_digit (c : Ascii.ascii) : bool :=
  match Ascii.is_nat c with Some _ => true | None => false end.

Fixpoint take_digits (s : string) : string * string :=
  match s with
  | String c s' =>
      if is_digit c
      then let '(ds, rest) := take_digits s' in (String c ds, rest)
      else (EmptyString, s)
  | EmptyString => (EmptyString, EmptyString)
  end.

Definition two_digits (a b : Ascii.ascii) : option Z :=
  match Ascii.is_nat a, Ascii.is_nat b with
  | Some x, Some y => Some (Z.of_nat (10 * x + y))
  | _, _ => None
  end.

Definition is_leap (y : Z) : bool :=
  ((y mod 4 =? 0) && negb (y mod 100 =? 0)) || (y mod 400 =? 0).

Definition days_in_month (y m : Z) : Z :=
  if (m =? 2) then (if is_leap y then 29 else 28)
  else if (m =? 4) || (m =? 6) || (m =? 9) || (m =? 11) then 30
  else 31.

Definition valid_date (d : date) : bool :=
  (1 <=? month d) && (month d <=? 12)
  && (1 <=? day d) && (day d <=? days_in_month (year d) (month d)).

Definition split_sign (s : string) : string * string :=
  match s with
  | String "-"%char s' => ("-", s')
  | _ => ("", s)
  end.

Definition parse_date (s : string) : option date :=
  let '(sign, body) := split_sign s in
  let '(ds, rest) := take_digits body in
  match NilZero.int_of_string (sign +:+ ds), rest with
  | Some y,
    String "-"%char (String m1 (String m2
      (String "-"%char (String d1 (String d2 EmptyString))))) =>
      match two_digits m1 m2, two_digits d1 d2 with
      | Some m, Some d =>
          let r := Date (Z.of_int y) m d in
          if valid_date r then Some r else None
      | _, _ => None
      end
  | _, _ => None
  end.

(** ** Values

    What a column holds and what a bound parameter carries.  The handlers bind
    only integers, text and booleans; dates reach the database as text. *)

Inductive value :=
| VInt (z : Z)
| VStr (s : string)
| VBool (b : bool)
| VDate (d : date).


(** ** Tables

    The three tables the statements read.  Key and filter columns are taken as
    NOT NULL; the statistics columns are nullable, as box scores are. *)

Record Game := {
  g_game_id : Z;
  g_game_date : date;
  g_game_type : string;
  g_home_team_id : Z;
  g_home_team_name : string;
  g_home_score : option Z;
  g_away_team_id : Z;
  g_away_team_name : string;
  g_away_score : option Z
}.

Record Player := {
  p_person_id : Z;
  p_first_name : string;
  p_last_name : string
}.

Record PlayerStatistic := {
  ps_game_id : Z;
  ps_person_id : Z;
  ps_game_date : date;
  ps_player_team_name : string;
  ps_opponent_team_name : string;
  ps_home : bool;
  ps_game_type : string;
  ps_points : option Z;
  ps_assists : option Z;
  ps_rebounds_total : option Z;
  ps_three_pointers_made : option Z;
  ps_field_goals_attempted : option Z;
  ps_field_goals_made : option Z;
  ps_free_throws_attempted : option Z;
  ps_free_throws_made : option Z;
  ps_plus_minus_points : option Z;
  ps_num_minutes : option Qc
}.

Record database := {
  games : list Game;
  players : list Player;
  player_statistics : list PlayerStatistic
}.

(** The columns a [WHERE] fragment can name, per table, under the names the
    statements use ([ps] is the alias of [player_statistics]). *)

Definition games_columns (g : Game) (col : string) : option value :=
  if String.eqb col "home_team_id" then Some (VInt (g_home_team_id g))
  else if String.eqb col "away_team_id" then Some (VInt (g_away_team_id g))
  else if String.eqb col "home_team_name" then Some (VStr (g_home_team_name g))
  else if String.eqb col "away_team_name" then Some (VStr (g_away_team_name g))
  else if String.eqb col "game_date" then Some (VDate (g_game_date g))
  else if String.eqb col "game_type" then Some (VStr (g_game_type g))
  else if String.eqb col "game_id" then Some (VInt (g_game_id g))
  else None.

Definition ps_columns (r : PlayerStatistic) (col : string) : option value :=
  if String.eqb col "ps.person_id" then Some (VInt (ps_person_id r))
  else if String.eqb col "ps.game_date" then Some (VDate (ps_game_date r))
  else if String.eqb col "ps.opponent_team_name"
       then Some (VStr (ps_opponent_team_name r))
  else if String.eqb col "ps.home" then Some (VBool (ps_home r))
  else if String.eqb col "ps.game_type" then Some (VStr (ps_game_type r))
  else if String.eqb col "ps.player_team_name"
       then Some (VStr (ps_player_team_name r))
  else if String.eqb col "ps.game_id" then Some (VInt (ps_game_id r))
  else None.

(** ** Outcomes of a database call

    A statement either returns or raises; the handlers catch nothing, so a
    raised error is the outcome of the request. *)

Inductive db_error :=
| SyntaxError
| UndefinedColumn (col : string)
| MissingParameter (name : string)
| InvalidDatetime (text : string)
| DatatypeMismatch
| NegativeLimit
| NegativeOffset.

Inductive outcome (A : Type) :=
| Returned (a : A)
| Raised (e : db_error).
Arguments Returned {A} a.
Arguments Raised {A} e.

#[export] Instance outcome_ret : MRet outcome := λ A a, Returned a.
#[export] Instance outcome_bind : MBind outcome := λ A B f m,
  match m with
  | Returned a => f a
  | Raised e => Raised e
  end.

(** ** [WHERE] fragments

    The handlers append text fragments to a list and join them with
    [" AND "].  A fragment is kept as a small syntax tree: [render] gives the
    text the source appends, [eval_cond] what the database makes of it on one
    row under the bound parameters. *)

Inductive cmp := CEq | CGe | CLt.

Inductive cond :=
| Cmp (col : string) (op : cmp) (placeholder : string)
| CAnd (a b : cond)
| COr (a b : cond)
| Paren (a : cond).

Definition render_cmp (op : cmp) : string :=
  match op with CEq => "=" | CGe => ">=" | CLt => "<" end.

Fixpoint render (c : cond) : string :=
  match c with
  | Cmp col op ph => col +:+ " " +:+ render_cmp op +:+ " :" +:+ ph
  | CAnd a b => render a +:+ " AND " +:+ render b
  | COr a b => render a +:+ " OR " +:+ render b
  | Paren a => "(" +:+ render a +:+ ")"
  end.

(** Python's [sep.join(items)]. *)
Fixpoint join (sep : string) (items : list string) : string :=
  match items with
  | [] => ""
  | [x] => x
  | x :: rest => x +:+ sep +:+ join sep rest
  end.

Definition sat (op : cmp) (c : comparison) : bool :=
  match op, c with
  | CEq, Eq => true
  | CGe, (Eq | Gt) => true
  | CLt, Lt => true
  | _, _ => false
  end.

(** A column against a bound value.  A date column compared with bound text
    coerces the text to a date, and the statement fails when that text is
    not a date. *)
Definition compare_values (op : cmp) (column bound : value) : outcome bool :=
  match column, bound with
  | VInt a, VInt b => Returned (sat op (a ?= b))
  | VStr a, VStr b => Returned (sat op (String.compare a b))
  | VBool a, VBool b => Returned (sat op (Bool.compare a b))
  | VDate a, VDate b => Returned (sat op (date_compare a b))
  | VDate a, VStr s =>
      match parse_date s with
      | Some b => Returned (sat op (date_compare a b))
      | None => Raised (InvalidDatetime s)
      end
  | _, _ => Raised DatatypeMismatch
  end.

Fixpoint eval_cond (params : gmap string value) (row : string → option value)
    (c : cond) : outcome bool :=
  match c with
  | Cmp col op ph =>
      match row col, params !! ph with
      | None, _ => Raised (UndefinedColumn col)
      | _, None => Raised (MissingParameter ph)
      | Some v, Some b => compare_values op v b
      end
  | CAnd a b =>
      x ← eval_cond params row a; y ← eval_cond params row b; mret (x && y)
  | COr a b =>
      x ← eval_cond params row a; y ← eval_cond params row b; mret (x || y)
  | Paren a => eval_cond params row a
  end.

(** The joined fragments: every one of them has to hold. *)
Fixpoint eval_where (params : gmap string value) (row : string → option value)
    (fragments : list cond) : outcome bool :=
  match fragments with
  | [] => mret true
  | c :: rest =>
      x ← eval_cond params row c;
      y ← eval_where params row rest;
      mret (x && y)
  end.

(** Rows of a table that satisfy the joined fragments. *)
Fixpoint select_where {A} (params : gmap string value)
    (columns : A → string → option value) (fragments : list cond)
    (rows : list A) : outcome (list A) :=
  match rows with
  | [] => mret []
  | r :: rest =>
      keep ← eval_where params (columns r) fragments;
      kept ← select_where params columns fragments rest;
      mret (if keep : bool then r :: kept else kept)
  end.

(** The fragments of the source, and their text. *)
Definition cond_tid : cond :=
  Paren (COr (Cmp "home_team_id" CEq "tid") (Cmp "away_team_id" CEq "tid")).
Definition cond_tname : cond :=
  Paren (COr (Cmp "home_team_name" CEq "tname")
             (Cmp "away_team_name" CEq "tname")).
Definition cond_season : cond :=
  CAnd (Cmp "game_date" CGe "start") (Cmp "game_date" CLt "end").
Definition cond_pid : cond := Cmp "ps.person_id" CEq "pid".
Definition cond_ps_season : cond :=
  CAnd (Cmp "ps.game_date" CGe "start") (Cmp "ps.game_date" CLt "end").
Definition cond_opp : cond := Cmp "ps.opponent_team_name" CEq "opp".
Definition cond_home : cond := Cmp "ps.home" CEq "home".
Definition cond_gt : cond := Cmp "ps.game_type" CEq "gt".

(** ** Result rows

    One record per statement, a field per selected column. *)

Record GameRow := {
  game_id : Z;
  game_date : date;
  game_type : string;
  home_team_name : string;
  home_score : option Z;
  away_team_name : string;
  away_score : option Z
}.

Record AggRow := {
  player_name : option string;
  last_n_pts : option Qc;
  last_n_reb : option Qc;
  last_n_ast : option Qc;
  last_n_pra : option Qc;
  season_pts : option Qc;
  season_reb : option Qc;
  season_ast : option Qc;
  season_pra : option Qc
}.

Record LogRow := {
  log_game_id : Z;
  log_game_date : date;
  team : string;
  opp : string;
  is_home : bool;
  log_game_type : string;
  points : option Z;
  assists : option Z;
  rebounds : option Z;
  pra : option Z;
  tpm : option Z;
  fga : option Z;
  fgm : option Z;
  fta : option Z;
  ftm : option Z;
  plus_minus : option Z;
  minutes : option Qc
}.

Record SearchRow := {
  person_id : Z;
  search_player_name : string
}.

(** ** Pieces of SQL the statements use *)

(** [a + b] on nullable integers. *)
Definition add_null (a b : option Z) : option Z :=
  match a, b with
  | Some x, Some y => Some (x + y)
  | _, _ => None
  end.

(** [AVG]: the mean of the values that are not NULL, NULL when there is none.
    The quotient is kept exact. *)
Definition AVG (column : list (option Z)) : option Qc :=
  match omap id column with
  | [] => None
  | vs => Some (Qcdiv (Q2Qc (inject_Z (foldr Z.add 0 vs)))
                      (Q2Qc (inject_Z (Z.of_nat (length vs)))))
  end.

(** [MAX] on text. *)
Definition MAX (column : list (option string)) : option string :=
  foldr (λ x acc,
           match x, acc with
           | Some a, Some b => Some (if String.leb a b then b else a)
           | Some a, None => Some a
           | None, _ => acc
           end) None column.

(** [ORDER BY key DESC] on a date: a row may precede another when its date
    is not the earlier one.  Rows of equal date keep their order. *)
Definition newest_first {A} (key : A → date) : relation A :=
  λ a b, date_compare (key a) (key b) ≠ Lt.

#[export] Instance comparison_eq_dec : EqDecision comparison.
Proof. solve_decision. Defined.

#[export] Instance newest_first_dec {A} (key : A → date) :
  RelDecision (newest_first key).
Proof. intros a b. unfold newest_first. apply _. Defined.

(** [ORDER BY key] on text. *)
Definition by_name {A} (key : A → string) : relation A :=
  λ a b, String.le (key a) (key b).

#[export] Instance by_name_dec {A} (key : A → string) :
  RelDecision (by_name key).
Proof. intros a b. unfold by_name. apply _. Defined.

(** A bound integer, for [LIMIT], [OFFSET] and the rank bound. *)
Definition bound_int (params : gmap string value) (name : string) : outcome Z :=
  match params !! name with
  | Some (VInt z) => Returned z
  | Some _ => Raised DatatypeMismatch
  | None => Raised (MissingParameter name)
  end.

Definition bound_text (params : gmap string value) (name : string)
    : outcome string :=
  match params !! name with
  | Some (VStr s) => Returned s
  | Some _ => Raised DatatypeMismatch
  | None => Raised (MissingParameter name)
  end.

(** [LIMIT n] and [OFFSET n]; a negative count is refused. *)
Definition LIMIT {A} (n : Z) (rows : list A) : outcome (list A) :=
  if n <? 0 then Raised NegativeLimit else Returned (take (Z.to_nat n) rows).

Definition OFFSET {A} (n : Z) (rows : list A) : outcome (list A) :=
  if n <? 0 then Raised NegativeOffset else Returned (drop (Z.to_nat n) rows).

(** *** [ILIKE]

    [%] matches any run of characters, [_] any one character, a backslash
    takes the next character of the pattern literally.  Letters are compared
    without case. *)

Definition lower (c : ascii) : ascii :=
  let n := nat_of_ascii c in
  if (65 <=? n)%nat && (n <=? 90)%nat then ascii_of_nat (n + 32) else c.

Fixpoint like (pattern : list ascii) (s : list ascii) {struct pattern} : bool :=
  match pattern with
  | [] => match s with [] => true | _ :: _ => false end
  | c :: pattern' =>
      if Ascii.eqb c "%" then
        (fix any_run (s : list ascii) : bool :=
           like pattern' s
           || match s with [] => false | _ :: s' => any_run s' end) s
      else if Ascii.eqb c "_" then
        match s with [] => false | _ :: s' => like pattern' s' end
      else if Ascii.eqb c "\" then
        match pattern' with
        | [] => false
        | e :: pattern'' =>
            match s with
            | [] => false
            | x :: s' => Ascii.eqb x e && like pattern'' s'
            end
        end
      else
        match s with
        | [] => false
        | x :: s' => Ascii.eqb x c && like pattern' s'
        end
  end.

Definition ILIKE (s pattern : string) : bool :=
  like (map lower (String.list_ascii_of_string pattern))
       (map lower (String.list_ascii_of_string s)).

(** [first_name || ' ' || last_name]. *)
Definition full_name (p : Player) : string :=
  p_first_name p +:+ " " +:+ p_last_name p.

(** *** The [ranked] common table expression of [/players/agg] *)

Record RankedRow := {
  rk_person_id : Z;
  rk_player_name : string;
  rk_game_date : date;
  rk_points : option Z;
  rk_assists : option Z;
  rk_rebounds : option Z;
  rk_pra : option Z;
  rn : Z
}.

(** [player_statistics ps JOIN players p ON p.person_id = ps.person_id]. *)
Definition join_players (db : database) : list (PlayerStatistic * Player) :=
  ps ← player_statistics db;
  p ← filter (λ p, p_person_id p = ps_person_id ps) (players db);
  [(ps, p)].

(** [ROW_NUMBER() OVER (PARTITION BY ps.person_id ...)] on rows already in
    the order of the window: a row's number is one more than the number of
    rows of its own partition before it. *)
Fixpoint row_number (before : list Z) (rows : list (PlayerStatistic * Player))
    : list RankedRow :=
  match rows with
  | [] => []
  | (ps, p) :: rest =>
      {| rk_person_id := ps_person_id ps;
         rk_player_name := full_name p;
         rk_game_date := ps_game_date ps;
         rk_points := ps_points ps;
         rk_assists := ps_assists ps;
         rk_rebounds := ps_rebounds_total ps;
         rk_pra := add_null (add_null (ps_points ps) (ps_assists ps))
                            (ps_rebounds_total ps);
         rn := 1 + Z.of_nat
                     (length (filter (λ k, k = ps_person_id ps) before)) |}
      :: row_number (ps_person_id ps :: before) rest
  end.

Definition ranked (db : database) (params : gmap string value)
    (season_clause : list cond) : outcome (list RankedRow) :=
  rows ← select_where params (λ r, ps_columns r.1)
         (cond_pid :: season_clause) (join_players db);
  mret (row_number []
          (merge_sort (newest_first (λ r, ps_game_date r.1)) rows)).

(** ** The four statements

    A statement is what the handler hands to [conn.execute]: [sql_text] is the
    text the f-string produces, [run] the rows the database answers with. *)

Inductive statement : Type → Type :=
| SelectGames (where_ : list cond) : statement GameRow
| SelectAgg (season_clause : list cond) : statement AggRow
| SelectGamelogs (wh : list cond) : statement LogRow
| SelectPlayers : statement SearchRow.

Definition sql_text {R} (st : statement R) : string :=
  match st with
  | SelectGames where_ =>
      "
      SELECT game_id, game_date, game_type,
             home_team_name, home_score,
             away_team_name, away_score
      FROM games
      WHERE "
      +:+ join " AND " (render <$> where_) +:+
      "
      ORDER BY game_date DESC
      LIMIT :limit;
    "
  | SelectAgg season_clause =>
      "
      WITH ranked AS (
        SELECT
          ps.person_id,
          (p.first_name || ' ' || p.last_name) AS player_name,
          ps.game_date::date AS game_date,
          ps.points, ps.assists, ps.rebounds_total AS rebounds,
          (ps.points + ps.assists + ps.rebounds_total) AS pra,
          ROW_NUMBER() OVER (PARTITION BY ps.person_id ORDER BY ps.game_date DESC) AS rn
        FROM player_statistics ps
        JOIN players p ON p.person_id = ps.person_id
        WHERE ps.person_id = :pid
          "
      +:+ join " " ((λ c, "AND " +:+ render c) <$> season_clause) +:+
      "
      )
      SELECT
        MAX(player_name) AS player_name,
        AVG(points)  FILTER (WHERE rn <= :n) AS last_n_pts,
        AVG(rebounds)FILTER (WHERE rn <= :n) AS last_n_reb,
        AVG(assists) FILTER (WHERE rn <= :n) AS last_n_ast,
        AVG(pra)     FILTER (WHERE rn <= :n) AS last_n_pra,
        AVG(points)  AS season_pts,
        AVG(rebounds)AS season_reb,
        AVG(assists) AS season_ast,
        AVG(pra)     AS season_pra
      FROM ranked;
    "
  | SelectGamelogs wh =>
      "
      SELECT
        ps.game_id,
        ps.game_date::date AS game_date,
        ps.player_team_name AS team,
        ps.opponent_team_name AS opp,
        ps.home AS is_home,
        ps.game_type,
        ps.points, ps.assists, ps.rebounds_total AS rebounds,
        (ps.points + ps.assists + ps.rebounds_total) AS pra,
        ps.three_pointers_made AS tpm,
        ps.field_goals_attempted AS fga, ps.field_goals_made AS fgm,
        ps.free_throws_attempted AS fta, ps.free_throws_made AS ftm,
        ps.plus_minus_points AS plus_minus,
        ps.num_minutes AS minutes
      FROM player_statistics ps
      WHERE "
      +:+ join " AND " (render <$> wh) +:+
      "
      ORDER BY ps.game_date DESC
      LIMIT :limit OFFSET :offset;
    "
  | SelectPlayers =>
      "
      SELECT person_id,
             (first_name || ' ' || last_name) AS player_name
      FROM players
      WHERE (first_name || ' ' || last_name) ILIKE :q
      ORDER BY player_name
      LIMIT :limit;
    "
  end.

Definition game_row (g : Game) : GameRow :=
  {| game_id := g_game_id g;
     game_date := g_game_date g;
     game_type := g_game_type g;
     home_team_name := g_home_team_name g;
     home_score := g_home_score g;
     away_team_name := g_away_team_name g;
     away_score := g_away_score g |}.

Definition log_row (r : PlayerStatistic) : LogRow :=
  {| log_game_id := ps_game_id r;
     log_game_date := ps_game_date r;
     team := ps_player_team_name r;
     opp := ps_opponent_team_name r;
     is_home := ps_home r;
     log_game_type := ps_game_type r;
     points := ps_points r;
     assists := ps_assists r;
     rebounds := ps_rebounds_total r;
     pra := add_null (add_null (ps_points r) (ps_assists r))
                     (ps_rebounds_total r);
     tpm := ps_three_pointers_made r;
     fga := ps_field_goals_attempted r;
     fgm := ps_field_goals_made r;
     fta := ps_free_throws_attempted r;
     ftm := ps_free_throws_made r;
     plus_minus := ps_plus_minus_points r;
     minutes := ps_num_minutes r |}.

Definition search_row (p : Player) : SearchRow :=
  {| person_id := p_person_id p; search_player_name := full_name p |}.

(** The aggregate [SELECT] over [ranked]: no [GROUP BY], hence one row
    whatever [ranked] holds. *)
Definition agg_row (n : Z) (rows : list RankedRow) : AggRow :=
  let recent := filter (λ r, rn r ≤ n) rows in
  {| player_name := MAX ((λ r, Some (rk_player_name r)) <$> rows);
     last_n_pts := AVG (rk_points <$> recent);
     last_n_reb := AVG (rk_rebounds <$> recent);
     last_n_ast := AVG (rk_assists <$> recent);
     last_n_pra := AVG (rk_pra <$> recent);
     season_pts := AVG (rk_points <$> rows);
     season_reb := AVG (rk_rebounds <$> rows);
     season_ast := AVG (rk_assists <$> rows);
     season_pra := AVG (rk_pra <$> rows) |}.

Definition run {R} (db : database) (st : statement R)
    (params : gmap string value) : outcome (list R) :=
  match st in statement R return outcome (list R) with
  | SelectGames where_ =>
      match where_ with
      | [] => Raised SyntaxError
      | _ =>
          rows ← select_where params games_columns where_ (games db);
          limit ← bound_int params "limit";
          page ← LIMIT limit (merge_sort (newest_first g_game_date) rows);
          mret (map game_row page)
      end
  | SelectAgg season_clause =>
      rows ← ranked db params season_clause;
      n ← bound_int params "n";
      mret [agg_row n rows]
  | SelectGamelogs wh =>
      match wh with
      | [] => Raised SyntaxError
      | _ =>
          rows ← select_where params ps_columns wh (player_statistics db);
          limit ← bound_int params "limit";
          offset ← bound_int params "offset";
          rest ← OFFSET offset (merge_sort (newest_first ps_game_date) rows);
          page ← LIMIT limit rest;
          mret (map log_row page)
      end
  | SelectPlayers =>
      q ← bound_text params "q";
      limit ← bound_int params "limit";
      page ← LIMIT limit
               (merge_sort (by_name search_player_name)
                  (map search_row
                     (filter (λ p, ILIKE (full_name p) q = true)
                             (players db))));
      mret page
  end.

(** ** The handlers

    A handler runs against the database behind [engine] and returns a payload
    or lets a database error through.  Every statement given to
    [conn.execute] is recorded, text and bound parameters, in the order sent. *)

Definition sent : Type := string * gmap string value.

Definition handler (A : Type) : Type :=
  database → list sent → outcome A * list sent.

#[export] Instance handler_ret : MRet handler := λ A a db log, (Returned a, log).
#[export] Instance handler_bind : MBind handler := λ A B f m db log,
  match m db log with
  | (Returned a, log') => f a db log'
  | (Raised e, log') => (Raised e, log')
  end.

(** [conn.execute(text(sql), params).mappings().all()]. *)
Definition conn_execute {R} (st : statement R) (params : gmap string value)
    : handler (list R) :=
  λ db log, (run db st params, log ++ [(sql_text st, params)]).

(** A request served from scratch: the outcome and the statements sent. *)
Definition serve {A} (h : handler A) (db : database) : outcome A * list sent :=
  h db [].

(** Python's truth test on an optional integer or string ([if x:]): the value
    when the test passes.  [None], [0] and [""] do not pass. *)
Definition truthy_int (x : option Z) : option Z :=
  match x with
  | Some z => if z =? 0 then None else Some z
  | None => None
  end.

Definition truthy_str (x : option string) : option string :=
  match x with
  | Some s => if String.eqb s "" then None else Some s
  | None => None
  end.

Inductive games_response :=
| ErrorPayload (error : string)
| GameList (rows : list GameRow).

Definition get_games (team_id : option Z) (team_name : option string)
    (season : option Z) (limit : Z) : handler games_response :=
  match truthy_int team_id, truthy_str team_name with
  | None, None => mret (ErrorPayload "Provide team_id or team_name")
  | tid, tname =>
      let where_ : list cond := [] in
      let params : gmap string value := {[ "limit" := VInt limit ]} in
      let '(where_, params) :=
        match tid with
        | Some t => (where_ ++ [cond_tid], <["tid" := VInt t]> params)
        | None => (where_, params)
        end in
      let '(where_, params) :=
        match tname with
        | Some t => (where_ ++ [cond_tname], <["tname" := VStr t]> params)
        | None => (where_, params)
        end in
      let '(where_, params) :=
        match season with
        | Some s =>
            (where_ ++ [cond_season],
             <["end" := VStr (season_end s)]>
               (<["start" := VStr (season_start s)]> params))
        | None => (where_, params)
        end in
      rows ← conn_execute (SelectGames where_) params;
      mret (GameList rows)
  end.

Inductive agg_response :=
| EmptyObject
| AggObject (row : AggRow).

(** The keys of the mapping [.first()] returns: a mapping is true when it has
    at least one key. *)
Definition agg_keys : list string :=
  ["player_name"; "last_n_pts"; "last_n_reb"; "last_n_ast"; "last_n_pra";
   "season_pts"; "season_reb"; "season_ast"; "season_pra"].

Definition mapping_truthy (row : AggRow) : bool :=
  negb (Nat.eqb (length agg_keys) 0).

Definition player_agg (person_id : Z) (season : option Z) (last_n : Z)
    : handler agg_response :=
  let season_clause : list cond :=
    match season with Some _ => [cond_ps_season] | None => [] end in
  let params : gmap string value :=
    <["n" := VInt last_n]> {[ "pid" := VInt person_id ]} in
  let params :=
    match season with
    | Some s =>
        <["end" := VStr (season_end s)]>
          (<["start" := VStr (season_start s)]> params)
    | None => params
    end in
  rows ← conn_execute (SelectAgg season_clause) params;
  mret (match head rows with
        | Some row => if mapping_truthy row then AggObject row else EmptyObject
        | None => EmptyObject
        end).

Definition player_gamelogs (person_id : Z) (season : option Z)
    (opponent : option string) (home : option bool)
    (game_type : option string) (limit offset : Z) : handler (list LogRow) :=
  let wh : list cond := [cond_pid] in
  let params : gmap string value :=
    <["offset" := VInt offset]>
      (<["limit" := VInt limit]> {[ "pid" := VInt person_id ]}) in
  let '(wh, params) :=
    match season with
    | Some s =>
        (wh ++ [cond_ps_season],
         <["end" := VStr (season_end s)]>
           (<["start" := VStr (season_start s)]> params))
    | None => (wh, params)
    end in
  let '(wh, params) :=
    match truthy_str opponent with
    | Some o => (wh ++ [cond_opp], <["opp" := VStr o]> params)
    | None => (wh, params)
    end in
  let '(wh, params) :=
    match home with
    | Some h => (wh ++ [cond_home], <["home" := VBool h]> params)
    | None => (wh, params)
    end in
  let '(wh, params) :=
    match truthy_str game_type with
    | Some g => (wh ++ [cond_gt], <["gt" := VStr g]> params)
    | None => (wh, params)
    end in
  rows ← conn_execute (SelectGamelogs wh) params;
  mret rows.

Definition players_search (q : string) (limit : Z) : handler (list SearchRow) :=
  let params : gmap string value :=
    <["limit" := VInt limit]> {[ "q" := VStr ("%" +:+ q +:+ "%") ]} in
  rows ← conn_execute SelectPlayers params;
  mret rows.

(** ** What the endpoints are meant to select

    The filters in the words of the specification, against which the
    handlers are compared: team, season window, opponent, venue, game type
    and name search, each as a property of a stored row. *)

(** The season window [[season-10-01, (season+1)-07-01)]. *)
Definition in_season (season : Z) (d : date) : Prop :=
  date_compare d (Date season 10 1) ≠ Lt
  ∧ date_compare d (Date (season + 1) 7 1) = Lt.

Definition within (season : option Z) (d : date) : Prop :=
  match season with
  | Some s => in_season s d
  | None => True
  end.

Definition games_filter (team_id : option Z) (team_name : option string)
    (season : option Z) (g : Game) : Prop :=
  match truthy_int team_id with
  | Some t => g_home_team_id g = t ∨ g_away_team_id g = t
  | None => True
  end
  ∧ match truthy_str team_name with
    | Some t => g_home_team_name g = t ∨ g_away_team_name g = t
    | None => True
    end
  ∧ within season (g_game_date g).

Definition agg_filter (person_id : Z) (season : option Z)
    (r : PlayerStatistic * Player) : Prop :=
  ps_person_id r.1 = person_id ∧ within season (ps_game_date r.1).

Definition gamelogs_filter (person_id : Z) (season : option Z)
    (opponent : option string) (home : option bool)
    (game_type : option string) (r : PlayerStatistic) : Prop :=
  ps_person_id r = person_id
  ∧ within season (ps_game_date r)
  ∧ match truthy_str opponent with
    | Some o => ps_opponent_team_name r = o
    | None => True
    end
  ∧ match home with
    | Some h => ps_home r = h
    | None => True
    end
  ∧ match truthy_str game_type with
    | Some g => ps_game_type r = g
    | None => True
    end.

#[export] Instance in_season_dec season d : Decision (in_season season d).
Proof. unfold in_season. apply _. Defined.

#[export] Instance within_dec season d : Decision (within season d).
Proof. destruct season; simpl; apply _. Defined.

#[export] Instance games_filter_dec team_id team_name season g :
  Decision (games_filter team_id team_name season g).
Proof.
  unfold games_filter.
  destruct (truthy_int team_id), (truthy_str team_name); apply _.
Defined.

#[export] Instance agg_filter_dec person_id season r :
  Decision (agg_filter person_id season r).
Proof. unfold agg_filter. apply _. Defined.

#[export] Instance gamelogs_filter_dec person_id season opponent home game_type r :
  Decision (gamelogs_filter person_id season opponent home game_type r).
Proof.
  unfold gamelogs_filter.
  destruct (truthy_str opponent), home, (truthy_str game_type); apply _.
Defined.

(** The games of a player an aggregate ranges over, most recent first. *)
Definition player_games (db : database) (person_id : Z) (season : option Z)
    : list (PlayerStatistic * Player) :=
  merge_sort (newest_first (λ r, ps_game_date r.1))
    (filter (agg_filter person_id season) (join_players db)).

(** The rows of a player's game log before paging, most recent first. *)
Definition matching_logs (db : database) (person_id : Z) (season : option Z)
    (opponent : option string) (home : option bool)
    (game_type : option string) : list PlayerStatistic :=
  merge_sort (newest_first ps_game_date)
    (filter (gamelogs_filter person_id season opponent home game_type)
            (player_statistics db)).


(** The games of a team before the cap, most recent first. *)
Definition matching_games (db : database) (team_id : option Z)
    (team_name : option string) (season : option Z) : list Game :=
  merge_sort (newest_first g_game_date)
    (filter (games_filter team_id team_name season) (games db)).

(** *** Name search by substring

    [q] occurs in the name, letters compared without case. *)

Definition chars (s : string) : list ascii := String.list_ascii_of_string s.


Fixpoint prefixb (q s : list ascii) : bool :=
  match q, s with
  | [], _ => true
  | c :: q', x :: s' => Ascii.eqb x c && prefixb q' s'
  | _ :: _, [] => false
  end.

Fixpoint infixb (q s : list ascii) : bool :=
  prefixb q s || match s with [] => false | _ :: s' => infixb q s' end.


(** A search text with none of the characters [ILIKE] reads specially. *)
Definition plain_chars (q : list ascii) : Prop :=
  Forall (λ c, c ≠ "%"%char ∧ c ≠ "_"%char ∧ c ≠ "\"%char) q.

Definition plain (q : string) : Prop := plain_chars (chars q).

(** ** Requests

    The routes of the application and their query parameters. *)

Inductive request :=
| GetGames (team_id : option Z) (team_name : option string)
    (season : option Z) (limit : Z)
| PlayerAgg (person_id : Z) (season : option Z) (last_n : Z)
| PlayerGamelogs (person_id : Z) (season : option Z)
    (opponent : option string) (home : option bool)
    (game_type : option string) (limit offset : Z)
| PlayersSearch (q : string) (limit : Z).

(** The statements a request sends, in order. *)
Definition statements_sent (r : request) (db : database) : list sent :=
  match r with
  | GetGames team_id team_name season limit =>
      (serve (get_games team_id team_name season limit) db).2
  | PlayerAgg person_id season last_n =>
      (serve (player_agg person_id season last_n) db).2
  | PlayerGamelogs person_id season opponent home game_type limit offset =>
      (serve (player_gamelogs person_id season opponent home game_type
                limit offset) db).2
  | PlayersSearch q limit =>
      (serve (players_search q limit) db).2
  end.

Definition present {A} (x : option A) : bool :=
  match x with Some _ => true | None => false end.

(** The route of a request and which of its optional filters take effect. *)
Definition shape (r : request) : string * list bool :=
  match r with
  | GetGames team_id team_name season _ =>
      ("/games", [present (truthy_int team_id);
                  present (truthy_str team_name); present season])
  | PlayerAgg _ season _ => ("/players/agg", [present season])
  | PlayerGamelogs _ season opponent home game_type _ _ =>
      ("/players/gamelogs",
       [present season; present (truthy_str opponent); present home;
        present (truthy_str game_type)])
  | PlayersSearch _ _ => ("/players/search", [])
  end.

(** The values of a request that reach the statement: every required
    parameter and every optional filter that takes effect, a season as its
    two boundary dates and the search text between its wildcards. *)
Definition season_values (season : option Z) : list value :=
  match season with
  | Some s => [VStr (season_start s); VStr (season_end s)]
  | None => []
  end.

Definition dynamic_values (r : request) : list value :=
  match r with
  | GetGames team_id team_name season limit =>
      [VInt limit]
      ++ option_list (VInt <$> truthy_int team_id)
      ++ option_list (VStr <$> truthy_str team_name)
      ++ season_values season
  | PlayerAgg person_id season last_n =>
      [VInt person_id; VInt last_n] ++ season_values season
  | PlayerGamelogs person_id season opponent home game_type limit offset =>
      [VInt person_id; VInt limit; VInt offset]
      ++ season_values season
      ++ option_list (VStr <$> truthy_str opponent)
      ++ option_list (VBool <$> home)
      ++ option_list (VStr <$> truthy_str game_type)
  | PlayersSearch q limit => [VStr ("%" +:+ q +:+ "%"); VInt limit]
  end.

(** ** Sample data *)

Definition box_score (person game : Z) (d : date) (opponent : string)
    (at_home : bool) (pts ast reb : Z) : PlayerStatistic :=
  {| ps_game_id := game;
     ps_person_id := person;
     ps_game_date := d;
     ps_player_team_name := "Warriors";
     ps_opponent_team_name := opponent;
     ps_home := at_home;
     ps_game_type := "Regular Season";
     ps_points := Some pts;
     ps_assists := Some ast;
     ps_rebounds_total := Some reb;
     ps_three_pointers_made := None;
     ps_field_goals_attempted := None;
     ps_field_goals_made := None;
     ps_free_throws_attempted := None;
     ps_free_throws_made := None;
     ps_plus_minus_points := None;
     ps_num_minutes := None |}.

Definition curry : Player :=
  {| p_person_id := 201939; p_first_name := "Stephen"; p_last_name := "Curry" |}.

Definition james : Player :=
  {| p_person_id := 2544; p_first_name := "LeBron"; p_last_name := "James" |}.

Definition sample_db : database :=
  {| games := [];
     players := [curry; james];
     player_statistics :=
       [ box_score 201939 11 (Date 2024 11 2) "Lakers" true 20 5 4;
         box_score 201939 10 (Date 2024 11 1) "Suns" false 10 6 3;
         box_score 201939 12 (Date 2024 11 3) "Lakers" false 30 7 5 ] |}.

Definition empty_db : database :=
  {| games := []; players := []; player_statistics := [] |}.

(** A long log: one game a day from the first of a season on, for one player. *)
Definition long_db : database :=
  {| games := [];
     players := [curry];
     player_statistics :=
       (λ i : nat, box_score 201939 (Z.of_nat i)
                     (Date (2000 + Z.of_nat i) 10 1) "Lakers" true
                     (Z.of_nat i) 0 0) <$> seq 0 120 |}.

(** The columns of the aggregate row, read on the player's games. *)
Definition pts (r : PlayerStatistic * Player) : option Z := ps_points r.1.
Definition reb (r : PlayerStatistic * Player) : option Z :=
  ps_rebounds_total r.1.
Definition ast (r : PlayerStatistic * Player) : option Z := ps_assists r.1.
Definition pts_reb_ast (r : PlayerStatistic * Player) : option Z :=
  add_null (add_null (ps_points r.1) (ps_assists r.1)) (ps_rebounds_total r.1).

(** ** The liveness route *)

Inductive root_response := Message (message : string).

(** [root()]: a constant payload. *)
Definition root : handler root_response :=
  mret (Message "NBA Betting API is running").

(** ** More sample data *)

Definition game (id : Z) (d : date) (home_id : Z) (home : string)
    (away_id : Z) (away : string) : Game :=
  {| g_game_id := id;
     g_game_date := d;
     g_game_type := "Regular Season";
     g_home_team_id := home_id;
     g_home_team_name := home;
     g_home_score := Some 110;
     g_away_team_id := away_id;
     g_away_team_name := away;
     g_away_score := Some 104 |}.



(** Box scores of a player who has no row in [players]. *)
Definition orphan_db : database :=
  {| games := [];
     players := [james];
     player_statistics := player_statistics sample_db |}.

(** * Proofs *)

(** ** Lemmas on the season boundaries *)

Lemma take_digits_uint (d : Decimal.uint) (rest : string) :
  fst (take_digits rest) = EmptyString →
  snd (take_digits rest) = rest →
  take_digits (NilEmpty.string_of_uint d +:+ rest)
  = (NilEmpty.string_of_uint d, rest).
Proof.
  intros H1 H2.
  induction d; simpl; try rewrite IHd; try reflexivity.
  change ("" +:+ rest) with rest.
  destruct (take_digits rest); simpl in *; congruence.
Qed.

Lemma take_digits_NilZero (d : Decimal.uint) (rest : string) :
  fst (take_digits rest) = EmptyString →
  snd (take_digits rest) = rest →
  take_digits (NilZero.string_of_uint d +:+ rest)
  = (NilZero.string_of_uint d, rest).
Proof.
  intros H1 H2. destruct d; try (apply (take_digits_uint _ rest H1 H2)).
  change (NilZero.string_of_uint Decimal.Nil +:+ rest) with (String "0"%char rest).
  cbn. destruct (take_digits rest); simpl in *; congruence.
Qed.

Lemma split_sign_uint (d : Decimal.uint) (rest : string) :
  split_sign (NilZero.string_of_uint d +:+ rest)
  = ("", NilZero.string_of_uint d +:+ rest).
Proof. destruct d; reflexivity. Qed.

Lemma to_int_not_nil (z : Z) :
  Z.to_int z ≠ Decimal.Pos Decimal.Nil ∧ Z.to_int z ≠ Decimal.Neg Decimal.Nil.
Proof.
  destruct z as [|p|p]; simpl; split; try congruence.
  - intros [= H]. revert H. apply DecimalPos.Unsigned.to_uint_nonnil.
  - intros [= H]. revert H. apply DecimalPos.Unsigned.to_uint_nonnil.
Qed.

Lemma int_of_string_str (z : Z) :
  NilZero.int_of_string (str z) = Some (Z.to_int z).
Proof. unfold str. apply NilZero.isi; apply to_int_not_nil. Qed.

Lemma parse_date_str (z m d : Z) (m1 m2 d1 d2 : Ascii.ascii) :
  two_digits m1 m2 = Some m →
  two_digits d1 d2 = Some d →
  valid_date (Date z m d) = true →
  parse_date (str z +:+ String "-"%char (String m1 (String m2
      (String "-"%char (String d1 (String d2 EmptyString))))))
  = Some (Date z m d).
Proof.
  intros Hm Hd Hv.
  set (tail := String "-"%char _).
  assert (Ht1 : fst (take_digits tail) = EmptyString) by reflexivity.
  assert (Ht2 : snd (take_digits tail) = tail) by reflexivity.
  pose proof (int_of_string_str z) as Hz.
  unfold parse_date, str in *.
  destruct (Z.to_int z) as [u|u] eqn:Hu; simpl NilZero.string_of_int in *.
  - pose proof (split_sign_uint u tail) as Hs.
    rewrite Hs, (take_digits_NilZero _ _ Ht1 Ht2).
    change ("" +:+ NilZero.string_of_uint u) with (NilZero.string_of_uint u).
    rewrite Hz. subst tail. cbv iota beta.
    rewrite Hm, Hd, <- Hu, DecimalZ.of_to, Hv. reflexivity.
  - change (split_sign _) with ("-", NilZero.string_of_uint u +:+ tail).
    cbv iota beta. rewrite (take_digits_NilZero _ _ Ht1 Ht2).
    change ("-" +:+ NilZero.string_of_uint u)
      with (String "-"%char (NilZero.string_of_uint u)).
    rewrite Hz. subst tail. cbv iota beta.
    rewrite Hm, Hd, <- Hu, DecimalZ.of_to, Hv. reflexivity.
Qed.

Lemma parse_season_start (season : Z) :
  parse_date (season_start season) = Some (Date season 10 1).
Proof. unfold season_start. by apply parse_date_str. Qed.

Lemma parse_season_end (season : Z) :
  parse_date (season_end season) = Some (Date (season + 1) 7 1).
Proof. unfold season_end. by apply parse_date_str. Qed.

(** ** The fragments read as in the source *)

Example render_cond_tid :
  render cond_tid = "(home_team_id = :tid OR away_team_id = :tid)".
Proof. reflexivity. Qed.

Example render_cond_tname :
  render cond_tname = "(home_team_name = :tname OR away_team_name = :tname)".
Proof. reflexivity. Qed.

Example render_cond_season :
  render cond_season = "game_date >= :start AND game_date < :end".
Proof. reflexivity. Qed.

Example render_cond_pid : render cond_pid = "ps.person_id = :pid".
Proof. reflexivity. Qed.

Example render_cond_ps_season :
  render cond_ps_season = "ps.game_date >= :start AND ps.game_date < :end".
Proof. reflexivity. Qed.

Example render_cond_opp : render cond_opp = "ps.opponent_team_name = :opp".
Proof. reflexivity. Qed.

Example render_cond_home : render cond_home = "ps.home = :home".
Proof. reflexivity. Qed.

Example render_cond_gt : render cond_gt = "ps.game_type = :gt".
Proof. reflexivity. Qed.
(** ** Order on dates *)


Lemma date_compare_antisym (a b : date) :
  date_compare b a = CompOpp (date_compare a b).
Proof.
  unfold date_compare.
  rewrite (Z.compare_antisym (year a)), (Z.compare_antisym (month a)),
    (Z.compare_antisym (day a)).
  destruct (year a ?= year b), (month a ?= month b), (day a ?= day b); done.
Qed.


Lemma date_compare_not_lt_trans (a b c : date) :
  date_compare a b ≠ Lt → date_compare b c ≠ Lt → date_compare a c ≠ Lt.
Proof.
  unfold date_compare.
  destruct (Z.compare_spec (year a) (year b)),
    (Z.compare_spec (year b) (year c)),
    (Z.compare_spec (year a) (year c)); try done; try lia;
  destruct (Z.compare_spec (month a) (month b)),
    (Z.compare_spec (month b) (month c)),
    (Z.compare_spec (month a) (month c)); try done; try lia;
  destruct (Z.compare_spec (day a) (day b)),
    (Z.compare_spec (day b) (day c)),
    (Z.compare_spec (day a) (day c)); try done; lia.
Qed.

#[export] Instance newest_first_total {A} (key : A → date) :
  Total (newest_first key).
Proof.
  intros a b. unfold newest_first.
  rewrite (date_compare_antisym (key a) (key b)).
  destruct (date_compare (key a) (key b)); simpl; auto.
Qed.

#[export] Instance newest_first_trans {A} (key : A → date) :
  Transitive (newest_first key).
Proof. intros a b c. apply date_compare_not_lt_trans. Qed.

#[export] Instance by_name_total {A} (key : A → string) : Total (by_name key).
Proof. intros a b. unfold by_name. apply String.le_total. Qed.

#[export] Instance by_name_trans {A} (key : A → string) :
  Transitive (by_name key).
Proof. intros a b c. unfold by_name. apply transitivity. Qed.



(** ** What the fragments mean on a row *)

Lemma sat_eq_Z (a b : Z) : sat CEq (a ?= b) = bool_decide (a = b).
Proof.
  destruct (Z.compare_spec a b); simpl;
    by (rewrite bool_decide_eq_true_2 by lia)
    || (rewrite bool_decide_eq_false_2 by lia).
Qed.

Lemma sat_eq_string (a b : string) :
  sat CEq (String.compare a b) = bool_decide (a = b).
Proof.
  destruct (String.compare a b) eqn:E; simpl.
  - apply String.compare_eq_iff in E. by rewrite bool_decide_eq_true_2.
  - rewrite bool_decide_eq_false_2; [done|].
    intros ->. pose proof (String.compare_antisym b b) as H.
    rewrite E in H. discriminate.
  - rewrite bool_decide_eq_false_2; [done|].
    intros ->. pose proof (String.compare_antisym b b) as H.
    rewrite E in H. discriminate.
Qed.

Lemma sat_eq_bool (a b : bool) :
  sat CEq (Bool.compare a b) = bool_decide (a = b).
Proof. by destruct a, b. Qed.

Lemma sat_window (season : Z) (d : date) :
  sat CGe (date_compare d (Date season 10 1))
  && sat CLt (date_compare d (Date (season + 1) 7 1))
  = bool_decide (in_season season d).
Proof.
  case_bool_decide as H; unfold in_season in H;
    destruct (date_compare d (Date season 10 1)),
      (date_compare d (Date (season + 1) 7 1)); simpl; try done;
    try (destruct H; congruence); exfalso; apply H; split; congruence.
Qed.

#[local] Arguments sat : simpl never.

Section fragments.
Variable params : gmap string value.

Lemma eval_cond_tid (g : Game) (t : Z) :
  params !! "tid" = Some (VInt t) →
  eval_cond params (games_columns g) cond_tid
  = Returned (bool_decide (g_home_team_id g = t ∨ g_away_team_id g = t)).
Proof.
  intros H. cbn. rewrite H. cbn. rewrite !sat_eq_Z.
  f_equal. repeat case_bool_decide; simpl; tauto.
Qed.

Lemma eval_cond_tname (g : Game) (t : string) :
  params !! "tname" = Some (VStr t) →
  eval_cond params (games_columns g) cond_tname
  = Returned (bool_decide (g_home_team_name g = t ∨ g_away_team_name g = t)).
Proof.
  intros H. cbn. rewrite H. cbn. rewrite !sat_eq_string.
  f_equal. repeat case_bool_decide; simpl; tauto.
Qed.

Lemma eval_cond_season (g : Game) (season : Z) :
  params !! "start" = Some (VStr (season_start season)) →
  params !! "end" = Some (VStr (season_end season)) →
  eval_cond params (games_columns g) cond_season
  = Returned (bool_decide (in_season season (g_game_date g))).
Proof.
  intros H1 H2. cbn. rewrite H1, H2. cbn.
  rewrite parse_season_start, parse_season_end. cbn.
  by rewrite sat_window.
Qed.

Lemma eval_cond_pid (r : PlayerStatistic) (pid : Z) :
  params !! "pid" = Some (VInt pid) →
  eval_cond params (ps_columns r) cond_pid
  = Returned (bool_decide (ps_person_id r = pid)).
Proof. intros H. cbn. rewrite H. cbn. by rewrite sat_eq_Z. Qed.

Lemma eval_cond_ps_season (r : PlayerStatistic) (season : Z) :
  params !! "start" = Some (VStr (season_start season)) →
  params !! "end" = Some (VStr (season_end season)) →
  eval_cond params (ps_columns r) cond_ps_season
  = Returned (bool_decide (in_season season (ps_game_date r))).
Proof.
  intros H1 H2. cbn. rewrite H1, H2. cbn.
  rewrite parse_season_start, parse_season_end. cbn.
  by rewrite sat_window.
Qed.

Lemma eval_cond_opp (r : PlayerStatistic) (o : string) :
  params !! "opp" = Some (VStr o) →
  eval_cond params (ps_columns r) cond_opp
  = Returned (bool_decide (ps_opponent_team_name r = o)).
Proof. intros H. cbn. rewrite H. cbn. by rewrite sat_eq_string. Qed.

Lemma eval_cond_home (r : PlayerStatistic) (h : bool) :
  params !! "home" = Some (VBool h) →
  eval_cond params (ps_columns r) cond_home
  = Returned (bool_decide (ps_home r = h)).
Proof. intros H. cbn. rewrite H. cbn. by rewrite sat_eq_bool. Qed.

Lemma eval_cond_gt (r : PlayerStatistic) (g : string) :
  params !! "gt" = Some (VStr g) →
  eval_cond params (ps_columns r) cond_gt
  = Returned (bool_decide (ps_game_type r = g)).
Proof. intros H. cbn. rewrite H. cbn. by rewrite sat_eq_string. Qed.

(** Rows are kept exactly when the joined fragments hold. *)
Lemma select_where_filter {A} (columns : A → string → option value)
    (fragments : list cond) (P : A → Prop) `{!∀ r, Decision (P r)}
    (rows : list A) :
  (∀ r, eval_where params (columns r) fragments
        = Returned (bool_decide (P r))) →
  select_where params columns fragments rows = Returned (filter P rows).
Proof.
  intros Hw. induction rows as [|r rows IH]; [done|].
  rewrite filter_cons. cbn [select_where]. rewrite Hw, IH.
  unfold mbind, outcome_bind, mret, outcome_ret.
  rewrite decide_bool_decide. by destruct (bool_decide (P r)).
Qed.
End fragments.
(** ** What each handler returns *)

Lemma execute_then_return {R A} (st : statement R)
    (params : gmap string value) (f : list R → A) (db : database)
    (log : list sent) :
  (rows ← conn_execute st params; mret (f rows)) db log
  = (match run db st params with
     | Returned rows => Returned (f rows)
     | Raised e => Raised e
     end, log ++ [(sql_text st, params)]).
Proof.
  unfold mbind, handler_bind, conn_execute.
  by destruct (run db st params).
Qed.

Lemma LIMIT_spec {A} (n : Z) (rows : list A) :
  LIMIT n rows
  = if n <? 0 then Raised NegativeLimit
    else Returned (take (Z.to_nat n) rows).
Proof. done. Qed.

Lemma bound_int_lookup (params : gmap string value) (name : string) (z : Z) :
  params !! name = Some (VInt z) → bound_int params name = Returned z.
Proof. intros H. unfold bound_int. by rewrite H. Qed.

Lemma bound_text_lookup (params : gmap string value) (name s : string) :
  params !! name = Some (VStr s) → bound_text params name = Returned s.
Proof. intros H. unfold bound_text. by rewrite H. Qed.

(** A truth value built from the fragments is the decision of the filter. *)
Ltac filter_decision unfolding :=
  f_equal; repeat case_bool_decide; unfolding; simpl in *;
  try done; exfalso; intuition congruence.

Ltac bound_lookup := by simplify_map_eq.

Lemma get_games_outcome (team_id : option Z) (team_name : option string)
    (season : option Z) (limit : Z) (db : database) (log : list sent) :
  (get_games team_id team_name season limit db log).1
  = match truthy_int team_id, truthy_str team_name with
    | None, None => Returned (ErrorPayload "Provide team_id or team_name")
    | _, _ =>
        if limit <? 0 then Raised NegativeLimit
        else Returned (GameList (map game_row
               (take (Z.to_nat limit)
                  (matching_games db team_id team_name season))))
    end.
Proof.
  unfold get_games, matching_games.
  destruct (truthy_int team_id) as [t|] eqn:Et,
    (truthy_str team_name) as [n|] eqn:En, season as [s|];
    try done;
    cbv beta iota zeta; rewrite execute_then_return; cbn [fst app run];
    match goal with
    | |- context [games_filter _ _ ?se] =>
        rewrite (select_where_filter _ games_columns _
                   (games_filter team_id team_name se));
        [ rewrite (bound_int_lookup _ "limit" limit) by bound_lookup;
          cbn; rewrite LIMIT_spec; by destruct (limit <? 0) | ]
    end;
    intros g; cbn [eval_where];
    repeat first
      [ rewrite (eval_cond_tid _ g t) by bound_lookup
      | rewrite (eval_cond_tname _ g n) by bound_lookup
      | rewrite (eval_cond_season _ g s) by bound_lookup ];
    cbn;
    filter_decision ltac:(unfold games_filter, within in *; rewrite ?Et, ?En in * ).
Qed.

Lemma OFFSET_spec {A} (n : Z) (rows : list A) :
  OFFSET n rows
  = if n <? 0 then Raised NegativeOffset
    else Returned (drop (Z.to_nat n) rows).
Proof. done. Qed.

Lemma player_gamelogs_outcome (person_id : Z) (season : option Z)
    (opponent : option string) (home : option bool)
    (game_type : option string) (limit offset : Z) (db : database)
    (log : list sent) :
  (player_gamelogs person_id season opponent home game_type limit offset
     db log).1
  = if offset <? 0 then Raised NegativeOffset
    else if limit <? 0 then Raised NegativeLimit
    else Returned (map log_row
           (take (Z.to_nat limit)
              (drop (Z.to_nat offset)
                 (matching_logs db person_id season opponent home
                                game_type)))).
Proof.
  unfold player_gamelogs, matching_logs.
  destruct season as [s|], (truthy_str opponent) as [o|] eqn:Eo,
    home as [h|], (truthy_str game_type) as [g|] eqn:Eg;
    cbv beta iota zeta; rewrite execute_then_return; cbn [fst app run];
    match goal with
    | |- context [gamelogs_filter _ ?se _ ?ho _] =>
        rewrite (select_where_filter _ ps_columns _
                   (gamelogs_filter person_id se opponent ho game_type));
        [ rewrite (bound_int_lookup _ "limit" limit) by bound_lookup;
          rewrite (bound_int_lookup _ "offset" offset) by bound_lookup;
          cbn; rewrite OFFSET_spec; destruct (offset <? 0); [done|];
          cbn; rewrite LIMIT_spec; by destruct (limit <? 0) | ]
    end;
    intros r; cbn [eval_where];
    rewrite (eval_cond_pid _ r person_id) by bound_lookup;
    repeat first
      [ rewrite (eval_cond_ps_season _ r s) by bound_lookup
      | rewrite (eval_cond_opp _ r o) by bound_lookup
      | rewrite (eval_cond_home _ r h) by bound_lookup
      | rewrite (eval_cond_gt _ r g) by bound_lookup ];
    cbn;
    filter_decision
      ltac:(unfold gamelogs_filter, within in *; rewrite ?Eo, ?Eg in * ).
Qed.

Lemma player_agg_outcome (person_id : Z) (season : option Z) (last_n : Z)
    (db : database) (log : list sent) :
  (player_agg person_id season last_n db log).1
  = Returned (AggObject
      (agg_row last_n (row_number [] (player_games db person_id season)))).
Proof.
  unfold player_agg, player_games.
  destruct season as [s|];
    cbv beta iota zeta; rewrite execute_then_return; cbn [fst run];
    unfold ranked;
    match goal with
    | |- context [agg_filter _ ?se] =>
        rewrite (select_where_filter _ (λ r, ps_columns r.1) _
                   (agg_filter person_id se));
        [ cbn [mbind outcome_bind mret outcome_ret];
          rewrite (bound_int_lookup _ "n" last_n) by bound_lookup;
          done | ]
    end;
    intros r; cbn [eval_where];
    rewrite (eval_cond_pid _ r.1 person_id) by bound_lookup;
    repeat rewrite (eval_cond_ps_season _ r.1 s) by bound_lookup;
    cbn;
    filter_decision ltac:(unfold agg_filter, within in * ).
Qed.

Lemma players_search_outcome (q : string) (limit : Z) (db : database)
    (log : list sent) :
  (players_search q limit db log).1
  = if limit <? 0 then Raised NegativeLimit
    else Returned
           (take (Z.to_nat limit)
              (merge_sort (by_name search_player_name)
                 (map search_row
                    (filter (λ p, ILIKE (full_name p) ("%" +:+ q +:+ "%")
                                  = true)
                            (players db))))).
Proof.
  unfold players_search. rewrite execute_then_return. cbn [fst run].
  rewrite (bound_text_lookup _ "q" ("%" +:+ q +:+ "%")) by bound_lookup.
  rewrite (bound_int_lookup _ "limit" limit) by bound_lookup.
  cbn. rewrite LIMIT_spec. by destruct (limit <? 0).
Qed.

(** ** Statements sent by each handler *)

Ltac sent_by_cases :=
  cbv beta iota zeta; rewrite ?execute_then_return; cbn [snd app fmap list_fmap fst].

Ltac bound_under_some_name :=
  first
    [ by (exists "limit"; simplify_map_eq)
    | by (exists "offset"; simplify_map_eq)
    | by (exists "tid"; simplify_map_eq)
    | by (exists "tname"; simplify_map_eq)
    | by (exists "start"; simplify_map_eq)
    | by (exists "end"; simplify_map_eq)
    | by (exists "pid"; simplify_map_eq)
    | by (exists "n"; simplify_map_eq)
    | by (exists "opp"; simplify_map_eq)
    | by (exists "home"; simplify_map_eq)
    | by (exists "gt"; simplify_map_eq)
    | by (exists "q"; simplify_map_eq) ].

Ltac each_value_bound :=
  intros st v Hst Hv; simpl in Hv; cbn in Hst;
  repeat match goal with
         | H : _ ∈ [] |- _ => by apply not_elem_of_nil in H
         | H : _ ∈ _ :: _ |- _ => apply elem_of_cons in H as [->|H]
         end;
  cbn [snd]; bound_under_some_name.

Lemma values_bound (r : request) (db : database) (st : sent) (v : value) :
  st ∈ statements_sent r db → v ∈ dynamic_values r →
  ∃ name, st.2 !! name = Some v.
Proof.
  revert st v.
  destruct r as [tid tn s lim | pid s n | pid s o h g lim off | q lim];
    unfold statements_sent, serve, dynamic_values, season_values.
  - unfold get_games.
    destruct (truthy_int tid), (truthy_str tn), s; sent_by_cases;
      each_value_bound.
  - unfold player_agg. destruct s; sent_by_cases; each_value_bound.
  - unfold player_gamelogs.
    destruct s, (truthy_str o), h, (truthy_str g); sent_by_cases;
      each_value_bound.
  - unfold players_search. sent_by_cases. each_value_bound.
Qed.

Lemma texts_by_shape (r1 r2 : request) (db1 db2 : database) :
  shape r1 = shape r2 →
  (statements_sent r1 db1).*1 = (statements_sent r2 db2).*1.
Proof.
  destruct r1 as [tid tn s lim | pid s n | pid s o h g lim off | q lim],
    r2 as [tid' tn' s' lim' | pid' s' n' | pid' s' o' h' g' lim' off'
          | q' lim'];
    try discriminate;
    unfold statements_sent, serve, shape.
  - unfold get_games.
    destruct (truthy_int tid), (truthy_str tn), s,
      (truthy_int tid'), (truthy_str tn'), s'; try discriminate;
      intros _; sent_by_cases; reflexivity.
  - unfold player_agg.
    destruct s, s'; try discriminate; intros _; sent_by_cases; reflexivity.
  - unfold player_gamelogs.
    destruct s, (truthy_str o), h, (truthy_str g),
      s', (truthy_str o'), h', (truthy_str g'); try discriminate;
      intros _; sent_by_cases; reflexivity.
  - intros _. unfold players_search. sent_by_cases. reflexivity.
Qed.

(** C8: the text of a statement depends on the route and on which optional
    filters take effect, never on the values: two requests of the same shape
    send statements of the same text, whatever their values and whatever the
    database holds; and every value of the request that takes effect is found
    in the dictionary of bound parameters of the statement sent. *)
Theorem values_are_bound_never_spliced (r1 r2 : request) (db1 db2 : database) :
  shape r1 = shape r2 →
  (statements_sent r1 db1).*1 = (statements_sent r2 db2).*1
  ∧ (∀ st v, st ∈ statements_sent r1 db1 → v ∈ dynamic_values r1 →
             ∃ name, st.2 !! name = Some v)
  ∧ (∀ st v, st ∈ statements_sent r2 db2 → v ∈ dynamic_values r2 →
             ∃ name, st.2 !! name = Some v).
Proof.
  intros H. split; [by apply texts_by_shape|].
  split; intros st v; apply values_bound.
Qed.

Lemma values_are_bound_never_spliced_witness :
  shape (PlayerGamelogs 201939 (Some 2023) (Some "Lakers") None (Some "") 50 0)
  = shape (PlayerGamelogs 2544 (Some 2015) (Some "Suns; DROP TABLE games")
             None None 10 20)
  ∧ (statements_sent
       (PlayerGamelogs 201939 (Some 2023) (Some "Lakers") None (Some "") 50 0)
       sample_db).*1
    = (statements_sent
         (PlayerGamelogs 2544 (Some 2015) (Some "Suns; DROP TABLE games")
            None None 10 20) empty_db).*1.
Proof.
  split; [reflexivity|].
  apply (values_are_bound_never_spliced
           (PlayerGamelogs 201939 (Some 2023) (Some "Lakers") None (Some "")
              50 0)
           (PlayerGamelogs 2544 (Some 2015) (Some "Suns; DROP TABLE games")
              None None 10 20)).
  reflexivity.
Defined.
(** * The claims *)

(** C3: a request to [/games] in which neither [team_id] nor [team_name] is
    set returns the error payload as an ordinary result (a returned value,
    neither a raised error nor a list of rows), and no statement is sent to
    the database: the record of statements is left as it was. *)
Theorem get_games_requires_team (season : option Z) (limit : Z)
    (db : database) (log : list sent) :
  get_games None None season limit db log
  = (Returned (ErrorPayload "Provide team_id or team_name"), log).
Proof. reflexivity. Qed.

(** C9: in [/games] a [team_id] of [0] and an empty [team_name] count as
    absent.  With [team_id = 0] and no usable [team_name] the error payload
    is returned and nothing is sent; next to a [team_name], [team_id = 0]
    changes nothing: the handler behaves as without [team_id], and the one
    statement sent carries the name predicate alone and no [tid] binding. *)
Theorem get_games_falsy_team (season : option Z) (limit : Z)
    (db : database) (log : list sent) :
  get_games (Some 0) None season limit db log
  = (Returned (ErrorPayload "Provide team_id or team_name"), log)
  ∧ get_games (Some 0) (Some "") season limit db log
    = (Returned (ErrorPayload "Provide team_id or team_name"), log)
  ∧ get_games None (Some "") season limit db log
    = (Returned (ErrorPayload "Provide team_id or team_name"), log)
  ∧ (∀ team_name,
       get_games (Some 0) team_name season limit
       = get_games None team_name season limit)
  ∧ (∀ team_id,
       get_games team_id (Some "") season limit
       = get_games team_id None season limit)
  ∧ (get_games (Some 0) (Some "Nuggets") None limit db log).2
    = log ++ [(sql_text (SelectGames [cond_tname]),
               <["tname" := VStr "Nuggets"]> {[ "limit" := VInt limit ]})].
Proof.
  repeat split; try reflexivity.
  unfold get_games. cbv beta iota zeta.
  change (truthy_int (Some 0)) with (@None Z).
  change (truthy_str (Some "Nuggets")) with (Some "Nuggets").
  cbv beta iota zeta. by rewrite execute_then_return.
Qed.

(** C10: in [/players/gamelogs] an empty [opponent] or [game_type] is the
    same request as one without that filter, while [home = False] is a
    filter of its own: the statement sent carries the predicate
    [ps.home = :home] with [False] bound to it, the rows returned are the
    away games among the rows that match the other filters, paged as usual,
    every row of the page is an away game, and on the sample data the answer
    differs from the one without [home]. *)
Theorem player_gamelogs_empty_and_false (person_id : Z) (season : option Z)
    (opponent : option string) (home : option bool)
    (game_type : option string) (limit offset : Z) (db : database)
    (log : list sent) :
  player_gamelogs person_id season (Some "") home game_type limit offset
  = player_gamelogs person_id season None home game_type limit offset
  ∧ player_gamelogs person_id season opponent home (Some "") limit offset
    = player_gamelogs person_id season opponent home None limit offset
  ∧ (player_gamelogs person_id season opponent (Some false) game_type
       limit offset db log).1
    = (if offset <? 0 then Raised NegativeOffset
       else if limit <? 0 then Raised NegativeLimit
       else Returned (map log_row
              (take (Z.to_nat limit)
                 (drop (Z.to_nat offset)
                    (merge_sort (newest_first ps_game_date)
                       (filter (λ r, ps_home r = false)
                          (filter (gamelogs_filter person_id season opponent
                                     None game_type)
                                  (player_statistics db))))))))
  ∧ Forall (λ row, is_home row = false)
       (map log_row
          (take (Z.to_nat limit)
             (drop (Z.to_nat offset)
                (matching_logs db person_id season opponent (Some false)
                               game_type))))
  ∧ (player_gamelogs person_id season opponent (Some false) game_type
       limit offset db log).2
    = log ++
      [(sql_text (SelectGamelogs
          ([cond_pid]
           ++ match season with Some _ => [cond_ps_season] | None => [] end
           ++ match truthy_str opponent with
              | Some _ => [cond_opp] | None => [] end
           ++ [cond_home]
           ++ match truthy_str game_type with
              | Some _ => [cond_gt] | None => [] end)),
        let p : gmap string value :=
          <["offset" := VInt offset]>
            (<["limit" := VInt limit]> {[ "pid" := VInt person_id ]}) in
        let p := match season with
                 | Some s => <["end" := VStr (season_end s)]>
                               (<["start" := VStr (season_start s)]> p)
                 | None => p end in
        let p := match truthy_str opponent with
                 | Some o => <["opp" := VStr o]> p | None => p end in
        let p := <["home" := VBool false]> p in
        match truthy_str game_type with
        | Some g => <["gt" := VStr g]> p | None => p end)]
  ∧ (serve (player_gamelogs 201939 None None (Some false) None 50 0)
       sample_db).1
    ≠ (serve (player_gamelogs 201939 None None None None 50 0) sample_db).1.
Proof.
  assert (Hfilter :
    filter (gamelogs_filter person_id season opponent (Some false) game_type)
           (player_statistics db)
    = filter (λ r, ps_home r = false)
        (filter (gamelogs_filter person_id season opponent None game_type)
                (player_statistics db))).
  { rewrite list_filter_filter. apply list_filter_iff.
    intros r. unfold gamelogs_filter. tauto. }
  split; [reflexivity|]. split; [reflexivity|].
  split; [|split; [|split]].
  - rewrite player_gamelogs_outcome. unfold matching_logs.
    by rewrite Hfilter.
  - apply Forall_forall. intros row Hin. unfold matching_logs in Hin.
    apply list_elem_of_fmap in Hin as (r & -> & Hin).
    eapply elem_of_sublist in Hin; [|apply sublist_take].
    eapply elem_of_sublist in Hin; [|apply sublist_drop].
    rewrite merge_sort_Permutation in Hin.
    apply list_elem_of_filter in Hin as [Hr _].
    unfold gamelogs_filter in Hr. simpl. tauto.
  - unfold player_gamelogs.
    destruct season, (truthy_str opponent), (truthy_str game_type);
      cbv beta iota zeta; by rewrite execute_then_return.
  - vm_compute. discriminate.
Qed.


Lemma map_fmap {A B} (f : A → B) (l : list A) : map f l = f <$> l.
Proof. by induction l as [|x l IH]; simpl; [|rewrite IH]. Qed.

(** C6: when at least 100 rows match the filters, [/players/gamelogs] with
    [offset=50] and [limit=50] returns 50 rows, and the row at position [i]
    of the page is the row at position [50 + i] (counted from 0) of the
    matching rows put in descending order of [game_date]: the 51st to the
    100th most recent. *)
Theorem player_gamelogs_second_page (person_id : Z) (season : option Z)
    (opponent : option string) (home : option bool)
    (game_type : option string) (db : database) (log : list sent) :
  (100 ≤ length (filter (gamelogs_filter person_id season opponent home
                           game_type) (player_statistics db)))%nat →
  let ordered :=
    matching_logs db person_id season opponent home game_type in
  ordered ≡ₚ filter (gamelogs_filter person_id season opponent home game_type)
               (player_statistics db)
  ∧ StronglySorted (newest_first ps_game_date) ordered
  ∧ ∃ page,
      (player_gamelogs person_id season opponent home game_type 50 50
         db log).1 = Returned page
      ∧ length page = 50%nat
      ∧ ∀ i, (i < 50)%nat →
             page !! i = log_row <$> ordered !! (50 + i)%nat.
Proof.
  intros Hlen ordered.
  assert (Hperm : ordered ≡ₚ filter (gamelogs_filter person_id season opponent
                                       home game_type) (player_statistics db))
    by apply merge_sort_Permutation.
  split; [done|]. split; [apply StronglySorted_merge_sort; apply _|].
  rewrite player_gamelogs_outcome. fold ordered.
  change (50 <? 0) with false. cbv iota.
  change (Z.to_nat 50) with 50%nat.
  eexists. split; [reflexivity|].
  rewrite <- Hperm in Hlen.
  split.
  - rewrite map_fmap, length_fmap, length_take, length_drop. lia.
  - intros i Hi.
    by rewrite map_fmap, list_lookup_fmap, lookup_take_lt, lookup_drop.
Qed.

Lemma player_gamelogs_second_page_witness :
  ∃ page,
    (serve (player_gamelogs 201939 None None None None 50 50) long_db).1
    = Returned page
    ∧ length page = 50%nat
    ∧ ∀ i, (i < 50)%nat →
           page !! i
           = log_row <$>
               matching_logs long_db 201939 None None None None
               !! (50 + i)%nat.
Proof.
  refine (proj2 (proj2
    (player_gamelogs_second_page 201939 None None None None long_db [] _))).
  vm_compute. lia.
Defined.

(** ** The ranked rows of one player *)

Lemma row_number_recent (pid n : Z) (rows : list (PlayerStatistic * Player))
    (before : list Z) :
  Forall (λ r, ps_person_id r.1 = pid) rows →
  Forall (λ k, k = pid) before →
  filter (λ r, rn r ≤ n) (row_number before rows)
  = row_number before (take (Z.to_nat (n - Z.of_nat (length before))) rows).
Proof.
  intros Hrows. revert before.
  induction Hrows as [|[ps p] rows Hpid _ IH]; intros before Hbefore.
  { by rewrite take_nil. }
  simpl in Hpid. cbn [row_number]. rewrite filter_cons. cbn [rn].
  assert (Hcount : length (filter (λ k, k = ps_person_id ps) before)
                   = length before).
  { f_equal. clear -Hbefore Hpid. induction Hbefore as [|k before Hk _ IHb];
      [done|]. rewrite filter_cons, decide_True by congruence. by f_equal. }
  rewrite Hcount.
  specialize (IH (ps_person_id ps :: before)).
  rewrite IH by (constructor; [done|exact Hbefore]).
  cbn [length].
  replace (n - Z.of_nat (S (length before)))
    with (n - Z.of_nat (length before) - 1) by lia.
  case_decide as Hle.
  - replace (Z.to_nat (n - Z.of_nat (length before)))
      with (S (Z.to_nat (n - Z.of_nat (length before) - 1))) by lia.
    cbn [take row_number]. by rewrite Hcount.
  - replace (Z.to_nat (n - Z.of_nat (length before))) with 0%nat by lia.
    replace (Z.to_nat (n - Z.of_nat (length before) - 1)) with 0%nat by lia.
    done.
Qed.

Lemma row_number_column {B} (f : RankedRow → B)
    (g : PlayerStatistic * Player → B)
    (rows : list (PlayerStatistic * Player)) (before : list Z) :
  (∀ ps p k, f (Build_RankedRow (ps_person_id ps) (full_name p)
                  (ps_game_date ps) (ps_points ps) (ps_assists ps)
                  (ps_rebounds_total ps)
                  (add_null (add_null (ps_points ps) (ps_assists ps))
                            (ps_rebounds_total ps)) k)
             = g (ps, p)) →
  f <$> row_number before rows = g <$> rows.
Proof.
  intros Hfg. revert before.
  induction rows as [|[ps p] rows IH]; intros before; [done|].
  cbn [row_number fmap list_fmap]. f_equal; [apply Hfg|apply IH].
Qed.

Lemma player_games_one_player (db : database) (pid : Z) (season : option Z) :
  Forall (λ r, ps_person_id r.1 = pid) (player_games db pid season).
Proof.
  apply Forall_forall. intros r. unfold player_games.
  rewrite merge_sort_Permutation, list_elem_of_filter.
  by intros [[? _] _].
Qed.

Lemma agg_row_on_games (db : database) (pid n : Z) (season : option Z) :
  let games := player_games db pid season in
  let recent := take (Z.to_nat n) games in
  let row := agg_row n (row_number [] games) in
  last_n_pts row = AVG (pts <$> recent)
  ∧ last_n_reb row = AVG (reb <$> recent)
  ∧ last_n_ast row = AVG (ast <$> recent)
  ∧ last_n_pra row = AVG (pts_reb_ast <$> recent)
  ∧ season_pts row = AVG (pts <$> games)
  ∧ season_reb row = AVG (reb <$> games)
  ∧ season_ast row = AVG (ast <$> games)
  ∧ season_pra row = AVG (pts_reb_ast <$> games).
Proof.
  intros games recent row. unfold row, agg_row. cbn.
  rewrite (row_number_recent pid n games [])
    by (apply player_games_one_player || constructor).
  cbn [length]. replace (n - Z.of_nat 0) with n by lia. fold recent.
  repeat split; f_equal; by apply row_number_column.
Qed.

(** ** Averages *)


(** C1: without a season filter [/players/agg] computes the recent and the
    full-history averages on one list, the player's games in descending
    order of [game_date]: the recent ones on its first [last_n] rows, the
    others on all of it.  When the points of that list are [30, 20, 10] and
    [last_n = 2], [last_n_pts] is 25 and [season_pts] is 20. *)
Theorem player_agg_recent_and_season (person_id last_n : Z) (db : database)
    (log : list sent) :
  let games := player_games db person_id None in
  let recent := take (Z.to_nat last_n) games in
  ∃ row,
    (player_agg person_id None last_n db log).1 = Returned (AggObject row)
    ∧ last_n_pts row = AVG (pts <$> recent)
    ∧ last_n_reb row = AVG (reb <$> recent)
    ∧ last_n_ast row = AVG (ast <$> recent)
    ∧ last_n_pra row = AVG (pts_reb_ast <$> recent)
    ∧ season_pts row = AVG (pts <$> games)
    ∧ season_reb row = AVG (reb <$> games)
    ∧ season_ast row = AVG (ast <$> games)
    ∧ season_pra row = AVG (pts_reb_ast <$> games)
    ∧ (pts <$> games = [Some 30; Some 20; Some 10] → last_n = 2 →
       last_n_pts row = Some (Q2Qc (inject_Z 25))
       ∧ season_pts row = Some (Q2Qc (inject_Z 20))).
Proof.
  intros games recent.
  destruct (agg_row_on_games db person_id last_n None)
    as (H1 & H2 & H3 & H4 & H5 & H6 & H7 & H8).
  eexists. split; [apply player_agg_outcome|].
  fold games recent in H1, H2, H3, H4, H5, H6, H7, H8 |- *.
  repeat (split; [assumption|]).
  intros Hpts ->. rewrite H1, H5. unfold recent.
  change (Z.to_nat 2) with 2%nat. rewrite fmap_take, Hpts.
  split; cbn; f_equal; apply Qc_is_canon; reflexivity.
Qed.

Lemma player_agg_recent_and_season_witness :
  ∃ row,
    (serve (player_agg 201939 None 2) sample_db).1 = Returned (AggObject row)
    ∧ last_n_pts row = Some (Q2Qc (inject_Z 25))
    ∧ season_pts row = Some (Q2Qc (inject_Z 20)).
Proof.
  destruct (player_agg_recent_and_season 201939 2 sample_db [])
    as (row & Hrow & _ & _ & _ & _ & _ & _ & _ & _ & Hex).
  exists row. split; [exact Hrow|]. apply Hex; reflexivity.
Defined.



(** C4 (the code departs from it): when no row matches, [/players/agg] does
    not return the empty object.  The aggregate statement has no
    [GROUP BY], so it answers with one row of NULLs; that mapping has nine
    keys, so the truth test of [dict(row) if row else {}] passes and the
    row of NULLs is returned.  No error is raised. *)
Theorem player_agg_no_match_returns_nulls :
  let nulls :=
    {| player_name := None;
       last_n_pts := None; last_n_reb := None;
       last_n_ast := None; last_n_pra := None;
       season_pts := None; season_reb := None;
       season_ast := None; season_pra := None |} in
  (serve (player_agg 1 None 10) empty_db).1 = Returned (AggObject nulls)
  ∧ (serve (player_agg 1 (Some 2024) 10) sample_db).1
    = Returned (AggObject nulls)
  ∧ (serve (player_agg 1 None 10) empty_db).1 ≠ Returned EmptyObject
  ∧ (∀ person_id season last_n db log,
       (player_agg person_id season last_n db log).1 ≠ Returned EmptyObject).
Proof.
  cbv zeta. split; [by vm_compute|]. split; [by vm_compute|].
  split; [by vm_compute|].
  intros. by rewrite player_agg_outcome.
Qed.

(** ** [ILIKE] against substring search *)

Lemma like_any_run (p s : list ascii) :
  like ("%"%char :: p) s
  = like p s || match s with [] => false | _ :: s' => like ("%"%char :: p) s' end.
Proof. by destruct s. Qed.

Lemma like_percent (p s : list ascii) :
  like ("%"%char :: p) s = true
  ↔ ∃ pre post, s = pre ++ post ∧ like p post = true.
Proof.
  induction s as [|x s IH]; rewrite like_any_run.
  - rewrite orb_false_r. split.
    + intros H. by exists [], [].
    + intros (pre & post & Hs & H).
      symmetry in Hs. apply app_eq_nil in Hs as [-> ->]. done.
  - rewrite orb_true_iff, IH. split.
    + intros [H|(pre & post & -> & H)].
      * by exists [], (x :: s).
      * by exists (x :: pre), post.
    + intros (pre & post & Hs & H). destruct pre as [|y pre].
      * left. simpl in Hs. by subst.
      * right. injection Hs as -> ->. by exists pre, post.
Qed.

Lemma like_plain_cons (c : ascii) (p s : list ascii) :
  c ≠ "%"%char → c ≠ "_"%char → c ≠ "\"%char →
  like (c :: p) s
  = match s with [] => false | x :: s' => Ascii.eqb x c && like p s' end.
Proof.
  intros H1 H2 H3. cbn [like].
  rewrite (proj2 (Ascii.eqb_neq c "%") H1), (proj2 (Ascii.eqb_neq c "_") H2),
    (proj2 (Ascii.eqb_neq c "\") H3).
  done.
Qed.

Lemma like_plain_prefix (q p s : list ascii) :
  plain_chars q →
  like (q ++ p) s = true ↔ ∃ rest, s = q ++ rest ∧ like p rest = true.
Proof.
  intros Hq. revert s.
  induction Hq as [|c q (H1 & H2 & H3) _ IH]; intros s.
  - simpl. split; [intros H; by exists s|by intros (rest & -> & H)].
  - cbn [app]. rewrite like_plain_cons by done. destruct s as [|x s].
    + split; [done|]. intros (rest & H & _). simpl in H. discriminate.
    + rewrite andb_true_iff, IH, Ascii.eqb_eq. split.
      * intros (-> & rest & -> & H). by exists rest.
      * intros (rest & H0 & H). simpl in H0. injection H0 as -> ->.
        split; [done|]. by exists rest.
Qed.

Lemma like_contains (q s : list ascii) :
  plain_chars q →
  like ("%"%char :: q ++ ["%"%char]) s = true
  ↔ ∃ pre post, s = pre ++ q ++ post.
Proof.
  intros Hq. rewrite like_percent. split.
  - intros (pre & post & -> & H).
    apply (like_plain_prefix q) in H as (rest & -> & _); [|done].
    by exists pre, rest.
  - intros (pre & post & ->). exists pre, (q ++ post). split; [done|].
    apply like_plain_prefix; [done|]. exists post. split; [done|].
    apply like_percent. exists post, []. by rewrite app_nil_r.
Qed.

Lemma prefixb_spec (q s : list ascii) :
  prefixb q s = true ↔ ∃ post, s = q ++ post.
Proof.
  revert s. induction q as [|c q IH]; intros s; simpl.
  - split; [by exists s|done].
  - destruct s as [|x s].
    + split; [done|]. by intros (post & ?).
    + rewrite andb_true_iff, IH, Ascii.eqb_eq. split.
      * intros (-> & post & ->). by exists post.
      * intros (post & [= -> ->]). split; [done|]. by exists post.
Qed.

Lemma infixb_spec (q s : list ascii) :
  infixb q s = true ↔ ∃ pre post, s = pre ++ q ++ post.
Proof.
  induction s as [|x s IH]; cbn [infixb]; rewrite orb_true_iff, prefixb_spec.
  - split.
    + intros [(post & H)|?]; [|done]. by exists [], post.
    + intros (pre & post & H). left.
      symmetry in H. apply app_eq_nil in H as [-> H]. by exists post.
  - rewrite IH. split.
    + intros [(post & H)|(pre & post & ->)].
      * by exists [], post.
      * by exists (x :: pre), post.
    + intros (pre & post & H). destruct pre as [|y pre].
      * left. by exists post.
      * right. injection H as -> ->. by exists pre, post.
Qed.

Lemma lower_plain (c : ascii) :
  c ≠ "%"%char ∧ c ≠ "_"%char ∧ c ≠ "\"%char →
  lower c ≠ "%"%char ∧ lower c ≠ "_"%char ∧ lower c ≠ "\"%char.
Proof.
  destruct c as [[] [] [] [] [] [] [] []]; vm_compute;
    intros (H1 & H2 & H3); repeat split; congruence.
Qed.

Lemma chars_append (a b : string) : chars (a +:+ b) = chars a ++ chars b.
Proof. unfold chars. induction a as [|c a IH]; [done|]. simpl. by rewrite IH. Qed.

Lemma ILIKE_contains (name q : string) :
  plain q →
  ILIKE name ("%" +:+ q +:+ "%") = true
  ↔ infixb (map lower (chars q)) (map lower (chars name)) = true.
Proof.
  intros Hq. unfold ILIKE. fold (chars ("%" +:+ q +:+ "%")) (chars name).
  rewrite !chars_append. change (chars "%") with ["%"%char].
  cbn [app]. rewrite map_cons, map_app.
  change (lower "%") with "%"%char. change (map lower ["%"%char]) with ["%"%char].
  rewrite like_contains, infixb_spec; [done|].
  unfold plain, plain_chars in *. rewrite map_fmap.
  apply Forall_fmap. eapply Forall_impl; [exact Hq|].
  intros c. apply lower_plain.
Qed.


Lemma Sorted_take {A} (R : relation A) (l : list A) (n : nat) :
  Sorted R l → Sorted R (take n l).
Proof.
  intros H. revert n. induction H as [|x l Hl IH Hx]; intros [|n]; simpl;
    try by constructor.
  constructor; [apply IH|]. destruct Hx, n; simpl; by constructor.
Qed.




(** * Further properties of the handlers *)

(** X1: a request sends exactly one statement to the database, whatever the
    database answers, with two exceptions that send none: [/games] when
    neither [team_id] nor [team_name] passes the truth test, and the
    liveness route. *)
Theorem one_statement_per_request (r : request) (db : database)
    (log : list sent) :
  length (statements_sent r db)
  = match r with
    | GetGames team_id team_name _ _ =>
        match truthy_int team_id, truthy_str team_name with
        | None, None => 0%nat
        | _, _ => 1%nat
        end
    | _ => 1%nat
    end
  ∧ (root db log).2 = log.
Proof.
  split; [|reflexivity].
  destruct r as [tid tn s lim | pid s n | pid s o h g lim off | q lim];
    unfold statements_sent, serve.
  - unfold get_games.
    destruct (truthy_int tid), (truthy_str tn), s; sent_by_cases; reflexivity.
  - unfold player_agg. destruct s; sent_by_cases; reflexivity.
  - unfold player_gamelogs.
    destruct s, (truthy_str o), h, (truthy_str g); sent_by_cases; reflexivity.
  - unfold players_search. sent_by_cases. reflexivity.
Qed.











(** X7: the handlers do not check [limit] and [offset]: a negative value is
    bound and sent like any other, and the refusal of the database is the
    outcome of the request, not an error payload. *)
Theorem negative_limit_reaches_database (limit : Z) (db : database) :
  limit < 0 →
  (∀ team_name season,
     team_name ≠ "" →
     (serve (get_games None (Some team_name) season limit) db).1
     = Raised NegativeLimit
     ∧ ∃ text params,
         (serve (get_games None (Some team_name) season limit) db).2
         = [(text, params)]
         ∧ params !! "limit" = Some (VInt limit))
  ∧ (∀ person_id season opponent home game_type offset,
       0 ≤ offset →
       (serve (player_gamelogs person_id season opponent home game_type
                 limit offset) db).1 = Raised NegativeLimit)
  ∧ (∀ person_id season opponent home game_type offset,
       offset < 0 →
       (serve (player_gamelogs person_id season opponent home game_type
                 limit offset) db).1 = Raised NegativeOffset)
  ∧ (∀ q, (serve (players_search q limit) db).1 = Raised NegativeLimit
          ∧ (serve (players_search q limit) db).2
            = [(sql_text SelectPlayers,
                <["limit" := VInt limit]>
                  {[ "q" := VStr ("%" +:+ q +:+ "%") ]})]).
Proof.
  intros Hlimit. pose proof (proj2 (Z.ltb_lt limit 0) Hlimit) as Hl.
  unfold serve. split; [|split; [|split]].
  - intros team_name season Hname. split.
    + rewrite get_games_outcome, Hl. simpl.
      by rewrite (proj2 (String.eqb_neq team_name "") Hname).
    + unfold get_games. simpl.
      rewrite (proj2 (String.eqb_neq team_name "") Hname).
      destruct season; sent_by_cases; do 2 eexists;
        (split; [reflexivity|by simplify_map_eq]).
  - intros ? ? ? ? ? offset Hoffset. rewrite player_gamelogs_outcome, Hl.
    by rewrite (proj2 (Z.ltb_ge offset 0) Hoffset).
  - intros ? ? ? ? ? offset Hoffset. rewrite player_gamelogs_outcome.
    by rewrite (proj2 (Z.ltb_lt offset 0) Hoffset).
  - intros q. split.
    + by rewrite players_search_outcome, Hl.
    + unfold players_search. by rewrite execute_then_return.
Qed.

Lemma negative_limit_reaches_database_witness :
  (serve (players_search "curry" (-1)) sample_db).1 = Raised NegativeLimit.
Proof.
  destruct (negative_limit_reaches_database (-1) sample_db)
    as (_ & _ & _ & H); [lia|].
  exact (proj1 (H "curry")).
Defined.





(** X10: a [last_n] of zero or less ranks no game as recent: the four
    recent averages of [/players/agg] are NULL, while the season averages
    are those of all the player's games. *)
Theorem player_agg_last_n_not_positive (person_id : Z) (season : option Z)
    (last_n : Z) (db : database) (log : list sent) :
  last_n ≤ 0 →
  let games := player_games db person_id season in
  ∃ row,
    (player_agg person_id season last_n db log).1 = Returned (AggObject row)
    ∧ last_n_pts row = None ∧ last_n_reb row = None
    ∧ last_n_ast row = None ∧ last_n_pra row = None
    ∧ season_pts row = AVG (pts <$> games)
    ∧ season_reb row = AVG (reb <$> games)
    ∧ season_ast row = AVG (ast <$> games)
    ∧ season_pra row = AVG (pts_reb_ast <$> games).
Proof.
  intros Hn games.
  destruct (agg_row_on_games db person_id last_n season)
    as (H1 & H2 & H3 & H4 & H5 & H6 & H7 & H8).
  replace (Z.to_nat last_n) with 0%nat in * by lia.
  eexists. split; [apply player_agg_outcome|]. by repeat split.
Qed.

Lemma player_agg_last_n_not_positive_witness :
  ∃ row,
    (player_agg 201939 None 0 sample_db []).1 = Returned (AggObject row)
    ∧ last_n_pts row = None
    ∧ season_pts row = AVG (pts <$> player_games sample_db 201939 None).
Proof.
  destruct (player_agg_last_n_not_positive 201939 None 0 sample_db [])
    as (row & Hrow & H1 & _ & _ & _ & H5 & _); [lia|].
  exists row. split; [exact Hrow|]. split; [exact H1|exact H5].
Defined.

(** X11: when [last_n] is at least the number of the player's matching
    games, each recent average of [/players/agg] equals the season average
    of the same column. *)
Theorem player_agg_recent_is_season (person_id : Z) (season : option Z)
    (last_n : Z) (db : database) (log : list sent) :
  Z.of_nat (length (player_games db person_id season)) ≤ last_n →
  ∃ row,
    (player_agg person_id season last_n db log).1 = Returned (AggObject row)
    ∧ last_n_pts row = season_pts row
    ∧ last_n_reb row = season_reb row
    ∧ last_n_ast row = season_ast row
    ∧ last_n_pra row = season_pra row.
Proof.
  intros Hn.
  destruct (agg_row_on_games db person_id last_n season)
    as (H1 & H2 & H3 & H4 & H5 & H6 & H7 & H8).
  rewrite take_ge in H1, H2, H3, H4 by lia.
  eexists. split; [apply player_agg_outcome|].
  repeat split; congruence.
Qed.

Lemma player_agg_recent_is_season_witness :
  ∃ row,
    (player_agg 201939 None 3 sample_db []).1 = Returned (AggObject row)
    ∧ last_n_pts row = season_pts row.
Proof.
  destruct (player_agg_recent_is_season 201939 None 3 sample_db [])
    as (row & Hrow & H1 & _).
  - vm_compute. discriminate.
  - exists row. split; [exact Hrow|exact H1].
Defined.

(** X12: [last_n] bears on the recent averages only: two requests to
    [/players/agg] that differ in [last_n] alone return the same
    [player_name] and the same four season averages. *)
Theorem player_agg_season_ignores_last_n (person_id : Z) (season : option Z)
    (last_n last_n' : Z) (db : database) (log : list sent) :
  ∃ row row',
    (player_agg person_id season last_n db log).1 = Returned (AggObject row)
    ∧ (player_agg person_id season last_n' db log).1
      = Returned (AggObject row')
    ∧ player_name row = player_name row'
    ∧ season_pts row = season_pts row'
    ∧ season_reb row = season_reb row'
    ∧ season_ast row = season_ast row'
    ∧ season_pra row = season_pra row'.
Proof.
  do 2 eexists. split; [apply player_agg_outcome|].
  split; [apply player_agg_outcome|]. by repeat split.
Qed.

(** ** The join with [players] *)

Lemma elem_of_join_players (db : database) (r : PlayerStatistic * Player) :
  r ∈ join_players db
  ↔ r.1 ∈ player_statistics db ∧ r.2 ∈ players db
    ∧ p_person_id r.2 = ps_person_id r.1.
Proof.
  unfold join_players. rewrite list_elem_of_bind. split.
  - intros (ps & Hr & Hps). apply list_elem_of_bind in Hr as (p & Hr & Hp).
    apply list_elem_of_filter in Hp as [Hid Hp].
    apply list_elem_of_singleton in Hr as ->. done.
  - destruct r as [ps p]. simpl. intros (Hps & Hp & Hid).
    exists ps. split; [|done]. apply list_elem_of_bind. exists p.
    split; [by apply list_elem_of_singleton|].
    by apply list_elem_of_filter.
Qed.

Lemma player_games_elem (db : database) (pid : Z) (season : option Z)
    (r : PlayerStatistic * Player) :
  r ∈ player_games db pid season
  ↔ r ∈ join_players db ∧ agg_filter pid season r.
Proof.
  unfold player_games.
  rewrite merge_sort_Permutation, list_elem_of_filter. tauto.
Qed.

Lemma agg_row_nil (n : Z) :
  agg_row n (row_number [] [])
  = {| player_name := None;
       last_n_pts := None; last_n_reb := None;
       last_n_ast := None; last_n_pra := None;
       season_pts := None; season_reb := None;
       season_ast := None; season_pra := None |}.
Proof. reflexivity. Qed.

(** X13: [/players/agg] reads box scores through a join with [players]: for
    a [person_id] that has no row in [players] it returns the row of NULLs
    even when box scores are stored for it, which [/players/gamelogs],
    reading [player_statistics] alone, still lists. *)
Theorem player_agg_needs_player_row (person_id : Z) (season : option Z)
    (last_n : Z) (db : database) (log : list sent) :
  (∀ p, p ∈ players db → p_person_id p ≠ person_id) →
  (player_agg person_id season last_n db log).1
  = Returned (AggObject
      {| player_name := None;
         last_n_pts := None; last_n_reb := None;
         last_n_ast := None; last_n_pra := None;
         season_pts := None; season_reb := None;
         season_ast := None; season_pra := None |})
  ∧ ∀ limit, 0 ≤ limit →
      (player_gamelogs person_id season None None None limit 0 db log).1
      = Returned (log_row <$>
          take (Z.to_nat limit)
            (matching_logs db person_id season None None None)).
Proof.
  intros Hnone. split.
  - rewrite player_agg_outcome.
    assert (Hgames : player_games db person_id season = []).
    { destruct (player_games db person_id season) as [|r rest] eqn:E;
        [done|].
      assert (Hr : r ∈ player_games db person_id season)
        by (rewrite E; left).
      apply player_games_elem in Hr as [Hr [Hid _]].
      apply elem_of_join_players in Hr as (_ & Hp & Hpid).
      exfalso. apply (Hnone r.2 Hp). congruence. }
    by rewrite Hgames, agg_row_nil.
  - intros limit Hlimit. rewrite player_gamelogs_outcome.
    change (0 <? 0) with false. cbv iota.
    rewrite (proj2 (Z.ltb_ge limit 0) Hlimit).
    by rewrite map_fmap.
Qed.

Lemma player_agg_needs_player_row_witness :
  (player_agg 201939 None 10 orphan_db []).1
  = Returned (AggObject
      {| player_name := None;
         last_n_pts := None; last_n_reb := None;
         last_n_ast := None; last_n_pra := None;
         season_pts := None; season_reb := None;
         season_ast := None; season_pra := None |})
  ∧ length (matching_logs orphan_db 201939 None None None None) = 3%nat.
Proof.
  split; [|reflexivity].
  refine (proj1 (player_agg_needs_player_row 201939 None 10 orphan_db [] _)).
  intros p Hp. apply list_elem_of_singleton in Hp as ->. discriminate.
Defined.

Lemma MAX_same (a : string) (l : list (option string)) :
  l ≠ [] → Forall (λ x, x = Some a) l → MAX l = Some a.
Proof.
  intros Hne Hl. induction Hl as [|x l -> Hl IH]; [done|].
  cbn. destruct l as [|y l].
  - done.
  - fold (MAX (y :: l)). rewrite IH by done. by destruct (String.leb a a).
Qed.

(** X14: when [players] holds one row for the [person_id] and the player has
    at least one matching game, [player_name] in the answer of
    [/players/agg] is that player's first and last name with a space
    between. *)
Theorem player_agg_player_name (person_id : Z) (season : option Z)
    (last_n : Z) (db : database) (log : list sent) (p : Player) :
  filter (λ p', p_person_id p' = person_id) (players db) = [p] →
  player_games db person_id season ≠ [] →
  ∃ row,
    (player_agg person_id season last_n db log).1 = Returned (AggObject row)
    ∧ player_name row
      = Some (p_first_name p +:+ " " +:+ p_last_name p).
Proof.
  intros Hone Hgames.
  eexists. split; [apply player_agg_outcome|].
  unfold agg_row. cbn [player_name].
  rewrite (row_number_column (λ r, Some (rk_player_name r))
             (λ r, Some (full_name r.2))) by done.
  apply MAX_same.
  - intros Hnil. apply fmap_nil_inv in Hnil. done.
  - apply Forall_fmap, Forall_forall. intros r Hr. simpl.
    apply player_games_elem in Hr as [Hr [Hid _]].
    apply elem_of_join_players in Hr as (_ & Hp & Hpid).
    assert (Hin : r.2 ∈ filter (λ p', p_person_id p' = person_id)
                            (players db)).
    { apply list_elem_of_filter. split; [congruence|done]. }
    rewrite Hone in Hin. apply list_elem_of_singleton in Hin as ->. done.
Qed.

Lemma player_agg_player_name_witness :
  ∃ row,
    (player_agg 201939 None 10 sample_db []).1 = Returned (AggObject row)
    ∧ player_name row = Some "Stephen Curry".
Proof.
  apply (player_agg_player_name 201939 None 10 sample_db [] curry).
  - reflexivity.
  - by vm_compute.
Defined.

(** ** Averages do not depend on the order of the rows *)

Lemma sum_Permutation (l l' : list Z) :
  l ≡ₚ l' → foldr Z.add 0 l = foldr Z.add 0 l'.
Proof. induction 1; simpl; lia. Qed.

Lemma AVG_Permutation (l l' : list (option Z)) : l ≡ₚ l' → AVG l = AVG l'.
Proof.
  intros H. unfold AVG.
  assert (Hvs : omap id l ≡ₚ omap id l') by by rewrite H.
  destruct (omap id l) as [|v vs] eqn:E, (omap id l') as [|v' vs'] eqn:E'.
  - done.
  - by apply Permutation_nil_l in Hvs.
  - by apply Permutation_nil_r in Hvs.
  - by rewrite (sum_Permutation _ _ Hvs), (Permutation_length Hvs).
Qed.

Lemma filter_none {A} (P : A → Prop) `{!∀ x, Decision (P x)} (l : list A) :
  Forall (λ x, ¬ P x) l → filter P l = [].
Proof.
  induction 1 as [|x l Hx _ IH]; [done|].
  by rewrite filter_cons, decide_False.
Qed.

Lemma join_one_player (db : database) (pid : Z) (season : option Z)
    (p : Player) :
  filter (λ p', p_person_id p' = pid) (players db) = [p] →
  filter (agg_filter pid season) (join_players db)
  = (λ ps, (ps, p)) <$>
      filter (gamelogs_filter pid season None None None)
             (player_statistics db).
Proof.
  intros Hone. unfold join_players.
  induction (player_statistics db) as [|ps stats IH]; [done|].
  cbn [mbind list_bind]. rewrite filter_app, IH, filter_cons. clear IH.
  destruct (decide (ps_person_id ps = pid)) as [Hid|Hid].
  - rewrite Hid, Hone. cbn [mbind list_bind app].
    rewrite filter_cons, filter_nil.
    unfold agg_filter, gamelogs_filter. simpl.
    repeat case_decide; try done; exfalso; tauto.
  - rewrite decide_False by (unfold gamelogs_filter; tauto).
    replace (filter (agg_filter pid season) _) with (@nil (PlayerStatistic * Player));
      [done|].
    symmetry. apply filter_none, Forall_forall. intros r Hr.
    apply list_elem_of_bind in Hr as (p' & Hr & _).
    apply list_elem_of_singleton in Hr as ->.
    unfold agg_filter. simpl. tauto.
Qed.

(** X15: when [players] holds one row for the [person_id], the season
    averages of [/players/agg] are the averages of the columns [points],
    [rebounds], [assists] and [pra] over the player's whole game log, the
    rows [/players/gamelogs] reads for the same [person_id] and season with
    no other filter. *)
Theorem player_agg_averages_the_game_log (person_id : Z) (season : option Z)
    (last_n : Z) (db : database) (log : list sent) (p : Player) :
  filter (λ p', p_person_id p' = person_id) (players db) = [p] →
  let logs :=
    log_row <$> matching_logs db person_id season None None None in
  ∃ row,
    (player_agg person_id season last_n db log).1 = Returned (AggObject row)
    ∧ season_pts row = AVG (points <$> logs)
    ∧ season_reb row = AVG (rebounds <$> logs)
    ∧ season_ast row = AVG (assists <$> logs)
    ∧ season_pra row = AVG (pra <$> logs).
Proof.
  intros Hone logs.
  destruct (agg_row_on_games db person_id last_n season)
    as (_ & _ & _ & _ & H5 & H6 & H7 & H8).
  eexists. split; [apply player_agg_outcome|].
  rewrite H5, H6, H7, H8. unfold logs, player_games, matching_logs.
  rewrite <- !list_fmap_compose.
  repeat split; apply AVG_Permutation;
    rewrite !merge_sort_Permutation, (join_one_player _ _ _ _ Hone),
      <- list_fmap_compose; done.
Qed.

Lemma player_agg_averages_the_game_log_witness :
  ∃ row,
    (player_agg 201939 None 10 sample_db []).1 = Returned (AggObject row)
    ∧ season_pts row
      = AVG (points <$>
               (log_row <$>
                  matching_logs sample_db 201939 None None None None)).
Proof.
  destruct (player_agg_averages_the_game_log 201939 None 10 sample_db []
              curry) as (row & Hrow & H1 & _); [reflexivity|].
  exists row. split; [exact Hrow|exact H1].
Defined.

(** ** The average of a sum of columns *)







Lemma filter_all {A} (P : A → Prop) `{!∀ x, Decision (P x)} (l : list A) :
  Forall P l → filter P l = l.
Proof.
  induction 1 as [|x l Hx _ IH]; [done|].
  by rewrite filter_cons, decide_True, IH.
Qed.

(** X17: an empty search text matches every name: [/players/search] with
    [q] empty returns all players, in the order of their full names, cut at
    [limit] rows. *)
Theorem players_search_empty_text (limit : Z) (db : database)
    (log : list sent) :
  0 ≤ limit →
  (players_search "" limit db log).1
  = Returned (take (Z.to_nat limit)
                (merge_sort (by_name search_player_name)
                   (search_row <$> players db))).
Proof.
  intros Hlimit. rewrite players_search_outcome.
  rewrite (proj2 (Z.ltb_ge limit 0) Hlimit), map_fmap.
  rewrite filter_all; [done|].
  apply Forall_forall. intros p _.
  apply ILIKE_contains; [constructor|].
  by destruct (map lower (chars (full_name p))).
Qed.

Lemma players_search_empty_text_witness :
  (players_search "" 20 sample_db []).1
  = Returned (take (Z.to_nat 20)
                (merge_sort (by_name search_player_name)
                   (search_row <$> players sample_db))).
Proof. apply players_search_empty_text. lia. Defined.



(** X19: whatever the search text, [/players/search] returns at most
    [limit] rows, in the order of [player_name], and each row is the id and
    the full name of a stored player. *)
Theorem players_search_rows (q : string) (limit : Z) (db : database)
    (log : list sent) (rows : list SearchRow) :
  (players_search q limit db log).1 = Returned rows →
  Z.of_nat (length rows) ≤ limit
  ∧ Sorted (by_name search_player_name) rows
  ∧ ∀ row, row ∈ rows →
      ∃ p, p ∈ players db ∧ person_id row = p_person_id p
           ∧ search_player_name row
             = p_first_name p +:+ " " +:+ p_last_name p.
Proof.
  rewrite players_search_outcome.
  destruct (Z.ltb_spec limit 0); [discriminate|]. intros [= <-].
  split; [|split].
  - rewrite length_take. lia.
  - apply Sorted_take, Sorted_merge_sort. apply _.
  - intros row Hrow.
    eapply elem_of_sublist in Hrow; [|apply sublist_take].
    rewrite merge_sort_Permutation, map_fmap in Hrow.
    apply list_elem_of_fmap in Hrow as (p & -> & Hp).
    apply list_elem_of_filter in Hp as [_ Hp]. by exists p.
Qed.

Lemma players_search_rows_witness :
  Z.of_nat (length [search_row curry]) ≤ 20
  ∧ Sorted (by_name search_player_name) [search_row curry].
Proof.
  destruct (players_search_rows "curry" 20 sample_db [] [search_row curry])
    as (H1 & H2 & _); [by vm_compute|].
  split; [exact H1|exact H2].
Defined.

(** ** Seasons on the calendar *)






(** X22: the season is read back from either bound text: two season values
    with the same [start] text, or the same [end] text, are equal. *)
Theorem season_texts_injective (season season' : Z) :
  season_start season = season_start season'
  ∨ season_end season = season_end season' →
  season = season'.
Proof.
  intros [H|H].
  - pose proof (parse_season_start season) as H1.
    rewrite H, parse_season_start in H1. by injection H1.
  - pose proof (parse_season_end season) as H1.
    rewrite H, parse_season_end in H1. injection H1. lia.
Qed.

Lemma season_texts_injective_witness : 2024 = 2024.
Proof.
  apply (season_texts_injective 2024 2024). left. reflexivity.
Defined.
